(** * Ordinary least squares estimator of [ml_core.linear_models]

    A shallow embedding of [src/ml_core/linear_models/linear_regression.py]
    (class [LinearRegression]) and the properties of its fit procedure,
    its prediction and its diagnostics.

    - Python exceptions are values of [exn] (class name and message); a
      computation that may raise returns a [result].
    - Methods that read or assign attributes of [self] run in the monad [M],
      which threads the estimator and keeps every assignment made before an
      exception is raised, as Python does.
    - Arrays are numpy [ndarray]s of one or two dimensions.  Their scalars
      are kept abstract in the class [Scalar]; the instance [float_scalar]
      is IEEE 754 binary64, the type of a Python [float].
    - [numpy.linalg.inv] and [ml_core.core_components.linalg.is_invertible_svd]
      are not part of the file under study: the development is parametric
      in them. *)

From Stdlib Require Import ZArith String Ascii DecimalString DecimalNat List Bool Lia Floats.
Import ListNotations.

Set Implicit Arguments.

Open Scope string_scope.
Open Scope Z_scope.

(* ================================================================= *)
(** ** Exceptions and results *)

Record exn : Type := Exception { exn_class : string; exn_msg : string }.

Definition ValueError (msg : string) : exn := Exception "ValueError" msg.
Definition TypeError (msg : string) : exn := Exception "TypeError" msg.
Definition IndexError (msg : string) : exn := Exception "IndexError" msg.
Definition AttributeError (msg : string) : exn := Exception "AttributeError" msg.
Definition LinAlgError (msg : string) : exn := Exception "LinAlgError" msg.
Definition NotImplementedError : exn := Exception "NotImplementedError" "".

Inductive result (A : Type) : Type :=
| Ok (a : A)
| Raise (e : exn).
Arguments Ok {A} a.
Arguments Raise {A} e.

Definition is_ok {A} (r : result A) : bool :=
  match r with Ok _ => true | Raise _ => false end.

Definition rbind {A B} (r : result A) (k : A -> result B) : result B :=
  match r with
  | Ok a => k a
  | Raise e => Raise e
  end.

(* ================================================================= *)
(** ** Scalars *)

(** The arithmetic a numpy [float64] offers to the estimator.  No law is
    assumed: floating-point addition is not associative, and a division by
    zero yields an infinity or a NaN instead of raising. *)
Class Scalar (F : Type) : Type := {
  f0 : F;
  f1 : F;
  fadd : F -> F -> F;
  fsub : F -> F -> F;
  fmul : F -> F -> F;
  fdiv : F -> F -> F;
  fsqrt : F -> F;
  fle : F -> F -> bool;
  (** conversion of a Python [int] in mixed arithmetic *)
  of_int : Z -> F
}.

(** IEEE 754 binary64. *)
Definition float_of_int (z : Z) : float :=
  match z with
  | Z0 => PrimFloat.of_uint63 (Uint63.of_Z 0)
  | Zpos _ => PrimFloat.of_uint63 (Uint63.of_Z z)
  | Zneg p => PrimFloat.opp (PrimFloat.of_uint63 (Uint63.of_Z (Zpos p)))
  end.

#[export] Instance float_scalar : Scalar float := {
  f0 := PrimFloat.zero;
  f1 := PrimFloat.one;
  fadd := PrimFloat.add;
  fsub := PrimFloat.sub;
  fmul := PrimFloat.mul;
  fdiv := PrimFloat.div;
  fsqrt := PrimFloat.sqrt;
  fle := PrimFloat.leb;
  of_int := float_of_int
}.

(* ================================================================= *)
(** ** numpy arrays *)

Section Arrays.

Context {F : Type} {SF : Scalar F}.

(** A one-dimensional array is the list of its entries, of shape
    [(length v,)].  A two-dimensional array carries its shape and its
    entries; rows and columns are indexed from 0, and an entry outside the
    shape is never read. *)
Definition ndarray1 : Type := list F.

Record ndarray2 : Type := Array2 {
  shape0 : nat;
  shape1 : nat;
  at2 : nat -> nat -> F
}.

(** What [fit] and [predict] accept for [X]. *)
Inductive ArrayLike : Type :=
| Arr1 (v : ndarray1)
| Arr2 (m : ndarray2).

(** [X.shape[1]]: a one-dimensional array has a shape of one component. *)
Definition shape_1 (X : ArrayLike) : result nat :=
  match X with
  | Arr1 _ => Raise (IndexError "tuple index out of range")
  | Arr2 m => Ok (shape1 m)
  end.

(** [x.reshape(-1, 1)] of a one-dimensional array. *)
Definition reshape_column (v : ndarray1) : ndarray2 :=
  Array2 (length v) 1 (fun i _ => nth i v f0).

(** [np.ones((n, 1))]. *)
Definition np_ones (n m : nat) : ndarray2 := Array2 n m (fun _ _ => f1).

(** [np.hstack([A, B])] for two arrays of the same number of rows (the
    only call passes [np.ones((X.shape[0], 1))] and [X]). *)
Definition np_hstack (A B : ndarray2) : ndarray2 :=
  Array2 (shape0 A) (shape1 A + shape1 B)
         (fun i j => if (j <? shape1 A)%nat then at2 A i j
                     else at2 B i (j - shape1 A)).

(** [A.T]. *)
Definition transpose (A : ndarray2) : ndarray2 :=
  Array2 (shape1 A) (shape0 A) (fun i j => at2 A j i).

(** [np.sum] of the terms [f 0 .. f (n-1)], accumulated from the left. *)
Definition sum_upto (n : nat) (f : nat -> F) : F :=
  fold_left (fun acc k => fadd acc (f k)) (seq 0 n) f0.

Definition np_sum (v : ndarray1) : F := fold_left fadd v f0.

(** [A @ B] for two-dimensional operands. *)
Definition matmul (A B : ndarray2) : result ndarray2 :=
  if (shape1 A =? shape0 B)%nat then
    Ok (Array2 (shape0 A) (shape1 B)
               (fun i j => sum_upto (shape1 A)
                             (fun k => fmul (at2 A i k) (at2 B k j))))
  else Raise (ValueError "matmul: mismatch in core dimension").

(** [A @ v] for a one-dimensional right operand. *)
Definition matvec (A : ndarray2) (v : ndarray1) : result ndarray1 :=
  if (shape1 A =? length v)%nat then
    Ok (map (fun i => sum_upto (shape1 A)
                        (fun k => fmul (at2 A i k) (nth k v f0)))
            (seq 0 (shape0 A)))
  else Raise (ValueError "matmul: mismatch in core dimension").

(** [A @ b] where [b] is an attribute that may still hold [None]: numpy
    turns [None] into a zero-dimensional object array, which [matmul]
    rejects. *)
Definition matmul_attr (A : ndarray2) (b : option ndarray1) : result ndarray1 :=
  match b with
  | Some v => matvec A v
  | None => Raise (ValueError "matmul: operand does not have enough dimensions")
  end.

(** [v[0]]. *)
Definition getitem0 (v : ndarray1) : result F :=
  match v with
  | x :: _ => Ok x
  | [] => Raise (IndexError "index 0 is out of bounds")
  end.

(** Elementwise operations on one-dimensional arrays, with numpy's
    broadcasting of a length-one operand. *)
Fixpoint zip_with (op : F -> F -> F) (a b : ndarray1) : ndarray1 :=
  match a, b with
  | x :: a', y :: b' => op x y :: zip_with op a' b'
  | _, _ => []
  end.

Definition broadcast (op : F -> F -> F) (a b : ndarray1) : result ndarray1 :=
  if (length a =? length b)%nat then Ok (zip_with op a b)
  else match a, b with
       | [x], _ => Ok (map (fun y => op x y) b)
       | _, [y] => Ok (map (fun x => op x y) a)
       | _, _ => Raise (ValueError "operands could not be broadcast together")
       end.

Definition np_square (v : ndarray1) : ndarray1 := map (fun x => fmul x x) v.
Definition np_sqrt (v : ndarray1) : ndarray1 := map fsqrt v.

(** [np.mean(v)]: the sum divided by the number of entries. *)
Definition np_mean (v : ndarray1) : F :=
  fdiv (np_sum v) (of_int (Z.of_nat (length v))).

(** [np.std(v)] with its default [ddof=0]: the square root of the mean of
    the squared deviations from the mean. *)
Definition np_std (v : ndarray1) : F :=
  let m := np_mean v in
  fsqrt (fdiv (np_sum (np_square (map (fun x => fsub x m) v)))
              (of_int (Z.of_nat (length v)))).

(** [np.diag(A)] of a two-dimensional array: its main diagonal. *)
Definition np_diag (A : ndarray2) : ndarray1 :=
  map (fun i => at2 A i i) (seq 0 (Nat.min (shape0 A) (shape1 A))).

(** [c * A] for a scalar [c]. *)
Definition scale (c : F) (A : ndarray2) : ndarray2 :=
  Array2 (shape0 A) (shape1 A) (fun i j => fmul c (at2 A i j)).

End Arrays.

Arguments ndarray1 F : clear implicits.
Arguments ndarray2 F : clear implicits.
Arguments ArrayLike F : clear implicits.

(* ================================================================= *)
(** ** The estimator *)

Section Estimator.

Context {F : Type} {SF : Scalar F}.

(** The attributes of a [LinearRegression] instance.  [__init__] assigns
    [None] to the first five and leaves [x_] and [y_] unset: for these two
    [None] stands for a missing attribute. *)
Record LinearRegression : Type := Estimator {
  name : string;
  coef_ : option (ndarray1 F);
  intercept_ : option F;
  betas_ : option (ndarray1 F);
  degrees_of_freedom : option Z;
  num_predictors : option Z;
  trained : bool;
  compute_stats : bool;
  x_ : option (ndarray2 F);
  y_ : option (ndarray1 F)
}.

Definition __init__ (compute_stats : bool) : LinearRegression :=
  {| name := "LinearRegression";
     coef_ := None;
     intercept_ := None;
     betas_ := None;
     degrees_of_freedom := None;
     num_predictors := None;
     trained := false;
     compute_stats := compute_stats;
     x_ := None;
     y_ := None |}.

(** *** Methods as state transformers that may raise *)

Definition M (A : Type) : Type := LinearRegression -> result A * LinearRegression.

Definition ret {A} (a : A) : M A := fun self => (Ok a, self).

Definition raise {A} (e : exn) : M A := fun self => (Raise e, self).

Definition bind {A B} (m : M A) (k : A -> M B) : M B :=
  fun self =>
    match m self with
    | (Ok a, self') => k a self'
    | (Raise e, self') => (Raise e, self')
    end.

Definition lift {A} (r : result A) : M A := fun self => (r, self).

Definition get : M LinearRegression := fun self => (Ok self, self).

Definition modify (f : LinearRegression -> LinearRegression) : M unit :=
  fun self => (Ok tt, f self).

Notation "x <- c1 ;; c2" := (bind c1 (fun x => c2))
  (at level 61, c1 at next level, right associativity).
Notation "c1 ;; c2" := (bind c1 (fun _ => c2))
  (at level 61, right associativity).

(** Assignments [self.attr = v]. *)
Definition set_x_ (v : ndarray2 F) : M unit :=
  modify (fun s => {| name := name s; coef_ := coef_ s; intercept_ := intercept_ s;
                      betas_ := betas_ s; degrees_of_freedom := degrees_of_freedom s;
                      num_predictors := num_predictors s; trained := trained s;
                      compute_stats := compute_stats s; x_ := Some v; y_ := y_ s |}).

Definition set_y_ (v : ndarray1 F) : M unit :=
  modify (fun s => {| name := name s; coef_ := coef_ s; intercept_ := intercept_ s;
                      betas_ := betas_ s; degrees_of_freedom := degrees_of_freedom s;
                      num_predictors := num_predictors s; trained := trained s;
                      compute_stats := compute_stats s; x_ := x_ s; y_ := Some v |}).

Definition set_degrees_of_freedom (d : Z) : M unit :=
  modify (fun s => {| name := name s; coef_ := coef_ s; intercept_ := intercept_ s;
                      betas_ := betas_ s; degrees_of_freedom := Some d;
                      num_predictors := num_predictors s; trained := trained s;
                      compute_stats := compute_stats s; x_ := x_ s; y_ := y_ s |}).

Definition set_num_predictors (p : Z) : M unit :=
  modify (fun s => {| name := name s; coef_ := coef_ s; intercept_ := intercept_ s;
                      betas_ := betas_ s; degrees_of_freedom := degrees_of_freedom s;
                      num_predictors := Some p; trained := trained s;
                      compute_stats := compute_stats s; x_ := x_ s; y_ := y_ s |}).

Definition set_betas_ (b : ndarray1 F) : M unit :=
  modify (fun s => {| name := name s; coef_ := coef_ s; intercept_ := intercept_ s;
                      betas_ := Some b; degrees_of_freedom := degrees_of_freedom s;
                      num_predictors := num_predictors s; trained := trained s;
                      compute_stats := compute_stats s; x_ := x_ s; y_ := y_ s |}).

Definition set_intercept_ (b0 : F) : M unit :=
  modify (fun s => {| name := name s; coef_ := coef_ s; intercept_ := Some b0;
                      betas_ := betas_ s; degrees_of_freedom := degrees_of_freedom s;
                      num_predictors := num_predictors s; trained := trained s;
                      compute_stats := compute_stats s; x_ := x_ s; y_ := y_ s |}).

Definition set_coef_ (c : ndarray1 F) : M unit :=
  modify (fun s => {| name := name s; coef_ := Some c; intercept_ := intercept_ s;
                      betas_ := betas_ s; degrees_of_freedom := degrees_of_freedom s;
                      num_predictors := num_predictors s; trained := trained s;
                      compute_stats := compute_stats s; x_ := x_ s; y_ := y_ s |}).

Definition set_trained (t : bool) : M unit :=
  modify (fun s => {| name := name s; coef_ := coef_ s; intercept_ := intercept_ s;
                      betas_ := betas_ s; degrees_of_freedom := degrees_of_freedom s;
                      num_predictors := num_predictors s; trained := t;
                      compute_stats := compute_stats s; x_ := x_ s; y_ := y_ s |}).

(** Reads [self.x_] and [self.y_], which fail while the attribute is unset. *)
Definition get_x_ : M (ndarray2 F) :=
  self <- get ;;
  match x_ self with
  | Some x => ret x
  | None => raise (AttributeError "'LinearRegression' object has no attribute 'x_'")
  end.

Definition get_y_ : M (ndarray1 F) :=
  self <- get ;;
  match y_ self with
  | Some y => ret y
  | None => raise (AttributeError "'LinearRegression' object has no attribute 'y_'")
  end.

(** An [int] attribute used as an operand of float arithmetic. *)
Definition operand (o : option Z) : result F :=
  match o with
  | Some z => Ok (of_int z)
  | None => Raise (TypeError "unsupported operand type(s): 'float' and 'NoneType'")
  end.

(** *** External functions *)

(** [numpy.linalg.inv]: the entries it computes for a square array, or
    [None] when LAPACK reports a singular matrix. *)
Variable inv_entries : ndarray2 F -> option (nat -> nat -> F).

Definition np_linalg_inv (A : ndarray2 F) : result (ndarray2 F) :=
  if (shape0 A =? shape1 A)%nat then
    match inv_entries A with
    | Some e => Ok (Array2 (shape0 A) (shape1 A) e)
    | None => Raise (LinAlgError "Singular matrix")
    end
  else Raise (LinAlgError "Last 2 dimensions of the array must be square").

(** [ml_core.core_components.linalg.is_invertible_svd]. *)
Variable is_invertible_svd : ndarray2 F -> bool.

(** numpy's order statistics. *)
Variables np_min np_max np_median : ndarray1 F -> result F.
Variable np_percentile : ndarray1 F -> Z -> result F.

(** *** Static helpers *)

Definition _check_is_matrix_invertible (X : ndarray2 F) : result unit :=
  if negb (is_invertible_svd X) then Raise (ValueError "Matrix is not invertible.")
  else Ok tt.

Definition _include_intercept_column (X : ndarray2 F) : ndarray2 F :=
  np_hstack (np_ones (shape0 X) 1) X.

Definition _check_degrees_of_freedom (degrees_of_freedom : Z) : result unit :=
  if degrees_of_freedom <=? 0
  then Raise (ValueError "Degrees of freedom must be greater than 0.")
  else Ok tt.

(** *** Input normalisation *)

Definition _preprocess_input_matrix (X : ArrayLike F) : ndarray2 F :=
  let x_copy :=
    match X with
    | Arr1 v => reshape_column v
    | Arr2 m => m
    end in
  _include_intercept_column x_copy.

Definition _preprocess_input_vector (y : ndarray1 F) : ndarray1 F := y.

Definition _check_preprocess_is_needed (X : ArrayLike F) : M bool :=
  self <- get ;;
  let beta_len := match betas_ self with
                  | Some b => length b
                  | None => 0%nat
                  end in
  c <- lift (shape_1 X) ;;
  if negb (c =? beta_len)%nat then ret true else ret false.

Definition _preprocess_input_mat_if_needed (X : ArrayLike F) : M (ndarray2 F) :=
  needed <- _check_preprocess_is_needed X ;;
  if needed then ret (_preprocess_input_matrix X)
  else match X with
       | Arr2 m => ret m
       | Arr1 _ => (* not reached: [X.shape[1]] has raised *)
           raise (IndexError "tuple index out of range")
       end.

(** *** fit and predict *)

Definition fit (X : ArrayLike F) (y : ndarray1 F) : M unit :=
  let X := _preprocess_input_matrix X in
  let y := _preprocess_input_vector y in
  set_x_ X ;;
  set_y_ y ;;
  lift (_check_degrees_of_freedom (Z.of_nat (shape0 X) - Z.of_nat (shape1 X))) ;;
  set_degrees_of_freedom (Z.of_nat (shape0 X) - Z.of_nat (shape1 X)) ;;
  set_num_predictors (Z.of_nat (shape1 X) - 1) ;;
  XtX <- lift (matmul (transpose X) X) ;;
  lift (_check_is_matrix_invertible XtX) ;;
  XtX' <- lift (matmul (transpose X) X) ;;
  XtX_inv <- lift (np_linalg_inv XtX') ;;
  P <- lift (matmul XtX_inv (transpose X)) ;;
  betas <- lift (matvec P y) ;;
  set_betas_ betas ;;
  b0 <- lift (getitem0 betas) ;;
  set_intercept_ b0 ;;
  set_coef_ (skipn 1 betas) ;;
  set_trained true.

Definition predict (X : ArrayLike F) : M (ndarray1 F) :=
  x_array <- _preprocess_input_mat_if_needed X ;;
  self <- get ;;
  lift (matmul_attr x_array (betas_ self)).

Definition save (path : string) : M unit := raise NotImplementedError.

Definition load (path : string) : M unit := raise NotImplementedError.


(** *** Sums of squares *)

(** SST, the total sum of squares about the mean. *)
Definition _compute_total_sum_squares (y_true : ndarray1 F) : F :=
  let y_vec := _preprocess_input_vector y_true in
  let m := np_mean y_vec in
  np_sum (np_square (map (fun v => fsub v m) y_vec)).

Definition _compute_sum_squares_regression (y_pred y_true : ndarray1 F) : F :=
  let m := np_mean y_true in
  np_sum (np_square (map (fun v => fsub v m) y_pred)).

(** SSR, the sum of squared residuals. *)
Definition _compute_sum_squared_residuals (y_pred y_true : ndarray1 F) : result F :=
  rbind (broadcast fsub y_true y_pred) (fun d => Ok (np_sum (np_square d))).

(** *** Diagnostics *)

(** The dictionary of [get_params], in insertion order; a value is a float
    or [None]. *)
Fixpoint enumerate_from (i : nat) (l : ndarray1 F) : list (nat * F) :=
  match l with
  | [] => []
  | x :: l' => (i, x) :: enumerate_from (S i) l'
  end.

Definition beta_key (i : nat) : string :=
  "beta_x_" ++ NilZero.string_of_uint (Nat.to_uint (i + 1)).

Definition get_params : M (list (string * option F)) :=
  self <- get ;;
  match coef_ self with
  | None => raise (TypeError "'NoneType' object is not iterable")
  | Some coef =>
      let params_dict :=
        map (fun ic => (beta_key (fst ic), Some (snd ic))) (enumerate_from 0 coef) in
      ret (params_dict ++ [("intercept", intercept_ self)])%list
  end.

Definition get_residuals : M (ndarray1 F) :=
  y <- get_y_ ;;
  let y_true_vec := _preprocess_input_vector y in
  x <- get_x_ ;;
  y_pred <- predict (Arr2 x) ;;
  lift (broadcast fsub y_true_vec y_pred).

Definition get_residuals_summary_stats : M (list (string * F)) :=
  residuals <- get_residuals ;;
  vmin <- lift (np_min residuals) ;;
  q1 <- lift (np_percentile residuals 25) ;;
  med <- lift (np_median residuals) ;;
  q3 <- lift (np_percentile residuals 75) ;;
  vmax <- lift (np_max residuals) ;;
  ret [("min", vmin); ("1Q", q1); ("median", med); ("3Q", q3); ("max", vmax)].

Definition _get_residuals_variance : M F :=
  residuals <- get_residuals ;;
  self <- get ;;
  dof <- lift (operand (degrees_of_freedom self)) ;;
  ret (fdiv (np_sum (np_square residuals)) dof).

Definition _compute_covariance_matrix : M (ndarray2 F) :=
  residuals_variance <- _get_residuals_variance ;;
  x <- get_x_ ;;
  x' <- get_x_ ;;
  XtX <- lift (matmul (transpose x) x') ;;
  XtX_inv <- lift (np_linalg_inv XtX) ;;
  ret (scale residuals_variance XtX_inv).

Definition compute_standard_errors : M (ndarray1 F) :=
  covariance_matrix <- _compute_covariance_matrix ;;
  ret (np_sqrt (np_diag covariance_matrix)).

Definition compute_t_statistics : M (ndarray1 F) :=
  standard_errors <- compute_standard_errors ;;
  self <- get ;;
  match betas_ self with
  | Some b => lift (broadcast fdiv b standard_errors)
  | None => raise (TypeError "unsupported operand type(s) for /: 'NoneType' and 'float'")
  end.

Definition compute_f_statistic : M F :=
  x <- get_x_ ;;
  y_pred <- predict (Arr2 x) ;;
  y <- get_y_ ;;
  let sst := _compute_total_sum_squares y in
  y' <- get_y_ ;;
  ssr <- lift (_compute_sum_squared_residuals y_pred y') ;;
  self <- get ;;
  dof <- lift (operand (degrees_of_freedom self)) ;;
  p <- lift (operand (num_predictors self)) ;;
  ret (fdiv (fmul (fsub sst ssr) dof) (fmul p ssr)).

Definition compute_r_squared : M F :=
  x <- get_x_ ;;
  y_pred <- predict (Arr2 x) ;;
  y <- get_y_ ;;
  let sst := _compute_total_sum_squares y in
  y' <- get_y_ ;;
  ssr <- lift (_compute_sum_squared_residuals y_pred y') ;;
  ret (fsub f1 (fdiv ssr sst)).

Definition compute_adjusted_r_squared : M F :=
  r_squared <- compute_r_squared ;;
  self <- get ;;
  p <- lift (operand (num_predictors self)) ;;
  dof <- lift (operand (degrees_of_freedom self)) ;;
  ret (fsub f1 (fdiv (fmul (fsub f1 r_squared) p) dof)).

Definition get_residual_standard_error : M F :=
  residuals <- get_residuals ;;
  ret (np_std residuals).

(** *** The states [fit] goes through *)

(** [X.T @ X], of shape [(c, c)] for [X] of shape [(n, c)]. *)
Definition gram (X : ndarray2 F) : ndarray2 F :=
  Array2 (shape1 X) (shape1 X)
         (fun i j => sum_upto (shape0 X) (fun k => fmul (at2 X k i) (at2 X k j))).

(** The estimator after lines 30-31: the normalised inputs are stored. *)
Definition stored (s : LinearRegression) (X : ndarray2 F) (y : ndarray1 F)
  : LinearRegression :=
  {| name := name s; coef_ := coef_ s; intercept_ := intercept_ s;
     betas_ := betas_ s; degrees_of_freedom := degrees_of_freedom s;
     num_predictors := num_predictors s; trained := trained s;
     compute_stats := compute_stats s; x_ := Some X; y_ := Some y |}.

(** The estimator after lines 34-35: the two counts are stored as well. *)
Definition counted (s : LinearRegression) (X : ndarray2 F) (y : ndarray1 F)
  : LinearRegression :=
  {| name := name s; coef_ := coef_ s; intercept_ := intercept_ s;
     betas_ := betas_ s;
     degrees_of_freedom := Some (Z.of_nat (shape0 X) - Z.of_nat (shape1 X));
     num_predictors := Some (Z.of_nat (shape1 X) - 1); trained := trained s;
     compute_stats := compute_stats s; x_ := Some X; y_ := Some y |}.

(** The estimator after line 42. *)
Definition fitted (s : LinearRegression) (X : ndarray2 F) (y betas : ndarray1 F)
  (b0 : F) : LinearRegression :=
  {| name := name s; coef_ := Some (skipn 1 betas); intercept_ := Some b0;
     betas_ := Some betas;
     degrees_of_freedom := Some (Z.of_nat (shape0 X) - Z.of_nat (shape1 X));
     num_predictors := Some (Z.of_nat (shape1 X) - 1); trained := true;
     compute_stats := compute_stats s; x_ := Some X; y_ := Some y |}.

(** The normal equations as the specification writes them,
    [betas = (XtX)^-1 Xt y]: entry [i] is the sum over the observations [k]
    of [((XtX)^-1 Xt)[i][k] * y[k]], for [XtX_inv] the entries of the
    inverse. *)
Definition normal_equations (XtX_inv : nat -> nat -> F) (X : ndarray2 F)
  (y : ndarray1 F) : ndarray1 F :=
  map (fun i =>
         sum_upto (shape0 X)
           (fun k => fmul (sum_upto (shape1 X)
                             (fun j => fmul (XtX_inv i j) (at2 X k j)))
                          (nth k y f0)))
      (seq 0 (shape1 X)).

(** The population standard deviation as the specification writes it: the
    square root of the sum of squared deviations from the mean, divided by
    the number [n] of values. *)
Definition population_std (n : nat) (v : ndarray1 F) : F :=
  let mean := fdiv (fold_left fadd v f0) (of_int (Z.of_nat n)) in
  fsqrt (fdiv (fold_left fadd (map (fun r => fmul (fsub r mean) (fsub r mean)) v) f0)
              (of_int (Z.of_nat n))).

(** The length [_check_preprocess_is_needed] compares the columns with. *)
Definition beta_len (s : LinearRegression) : nat :=
  match betas_ s with
  | Some b => length b
  | None => 0%nat
  end.

(** An estimator on which no call of [fit] has succeeded. *)
Inductive never_fitted : LinearRegression -> Prop :=
| never_fitted_init : forall cs, never_fitted (__init__ cs)
| never_fitted_raise : forall s X y e s',
    never_fitted s -> fit X y s = (Raise e, s') -> never_fitted s'.

(** A method that assigns no attribute. *)
Definition read_only {A} (m : M A) : Prop := forall s, snd (m s) = s.

(** A method call that raises one of Python's or numpy's own exceptions. *)
Definition builtin_classes : list string :=
  ["AttributeError"; "TypeError"; "ValueError"; "IndexError"].

Definition raises_builtin {A} (m : M A) (s : LinearRegression) : Prop :=
  exists e, fst (m s) = Raise e /\ In (exn_class e) builtin_classes.

End Estimator.

Arguments LinearRegression F : clear implicits.
Arguments M F A : clear implicits.

(* ================================================================= *)
(** ** Stand-ins for the external functions, used to run examples *)

Module Examples.

Open Scope float_scope.

(** The inverse of a 2 x 2 array in closed form; [None] when its
    determinant is zero and for the other shapes. *)
Definition inv_2x2 (A : ndarray2 float) : option (nat -> nat -> float) :=
  match shape0 A, shape1 A with
  | 2%nat, 2%nat =>
      let a := at2 A 0 0 in
      let b := at2 A 0 1 in
      let c := at2 A 1 0 in
      let d := at2 A 1 1 in
      let det := a * d - b * c in
      if PrimFloat.eqb det 0 then None
      else Some (fun i j =>
                   match i, j with
                   | 0%nat, 0%nat => d / det
                   | 0%nat, _ => - b / det
                   | _, 0%nat => - c / det
                   | _, _ => a / det
                   end)
  | _, _ => None
  end.

(** Modelled from the spec: [is_invertible_svd] treats a matrix as singular
    when its smallest singular value is below the largest one times [n]
    times the machine epsilon.  Here for a symmetric 2 x 2 array, whose
    singular values are the absolute values of its eigenvalues. *)
Definition machine_epsilon : float := 0x1p-52.

Definition is_invertible_2x2 (A : ndarray2 float) : bool :=
  match shape0 A, shape1 A with
  | 2%nat, 2%nat =>
      let a := at2 A 0 0 in
      let b := at2 A 0 1 in
      let d := at2 A 1 1 in
      let mid := (a + d) / 2 in
      let rad := PrimFloat.sqrt (((a - d) / 2) * ((a - d) / 2) + b * b) in
      let s1 := PrimFloat.abs (mid + rad) in
      let s2 := PrimFloat.abs (mid - rad) in
      let smax := if PrimFloat.leb s1 s2 then s2 else s1 in
      let smin := if PrimFloat.leb s1 s2 then s1 else s2 in
      negb (PrimFloat.ltb smin (smax * 2 * machine_epsilon))
  | _, _ => false
  end.

(** numpy's order statistics on a one-dimensional array; the percentile
    follows numpy's default linear interpolation between the two nearest
    ranks of the sorted array. *)
Definition reduce (pick : float -> float -> float) (what : string)
  (v : ndarray1 float) : result float :=
  match v with
  | [] => Raise (ValueError ("zero-size array to reduction operation " ++ what))
  | x :: l => Ok (fold_left pick l x)
  end.

Definition np_min : ndarray1 float -> result float :=
  reduce (fun a b => if PrimFloat.leb b a then b else a) "minimum".

Definition np_max : ndarray1 float -> result float :=
  reduce (fun a b => if PrimFloat.leb a b then b else a) "maximum".

Fixpoint insert_sorted (x : float) (l : list float) : list float :=
  match l with
  | [] => [x]
  | y :: l' => if PrimFloat.leb x y then x :: l else y :: insert_sorted x l'
  end.

Definition np_sort (v : ndarray1 float) : ndarray1 float :=
  fold_right insert_sorted [] v.

Definition np_percentile (v : ndarray1 float) (q : Z) : result float :=
  match v with
  | [] => Raise (IndexError "index -1 is out of bounds for axis 0 with size 0")
  | _ :: _ =>
      let sorted := np_sort v in
      let rank := (q * (Z.of_nat (length v) - 1))%Z in
      let lo := Z.to_nat (rank / 100) in
      let frac := float_of_int (rank mod 100) / 100 in
      let a := nth lo sorted 0 in
      let b := nth (S lo) sorted a in
      Ok (a + (b - a) * frac)
  end.

Definition np_median (v : ndarray1 float) : result float := np_percentile v 50.

(** Six observations of one predictor. *)
Definition xs : ArrayLike float := Arr1 [1; 2; 3; 4; 5; 6].
Definition ys : ndarray1 float := [2; 4; 6; 8; 10; 13].

(** Two observations of one predictor: no degree of freedom is left. *)
Definition xs_short : ArrayLike float := Arr1 [1; 2].
Definition ys_short : ndarray1 float := [1; 2].

(** A constant predictor: its column repeats the intercept column. *)
Definition xs_constant : ArrayLike float := Arr1 [1; 1; 1; 1].
Definition ys_constant : ndarray1 float := [1; 2; 3; 4].

(** An array of shape (3, 0). *)
Definition no_columns : ndarray2 float := Array2 3 0 (fun _ _ => 0).

(** An array of shape (3, 2). *)
Definition two_columns : ndarray2 float :=
  Array2 3 2 (fun i j => float_of_int (Z.of_nat (i + j))).

Definition fresh : LinearRegression float := __init__ false.

Abbreviation fit_ex := (fit inv_2x2 is_invertible_2x2).

(** The estimator after [fit] on the six observations. *)
Definition trained_ex : LinearRegression float := snd (fit_ex xs ys fresh).

End Examples.

(* ================================================================= *)
(** ** Shapes of the inputs *)

Section Inputs.

Context {F : Type} {SF : Scalar F}.

(** The number of observations and of predictors of an input, and its
    entry in row [i] and predictor [j]. *)
Definition rows (X : ArrayLike F) : nat :=
  match X with Arr1 v => length v | Arr2 m => shape0 m end.

Definition predictors (X : ArrayLike F) : nat :=
  match X with Arr1 _ => 1%nat | Arr2 m => shape1 m end.

Definition entry (X : ArrayLike F) (i j : nat) : F :=
  match X with Arr1 v => nth i v f0 | Arr2 m => at2 m i j end.

(** The predictions [x @ b], one per row of [x]. *)
Definition predictions (x : ndarray2 F) (b : ndarray1 F) : ndarray1 F :=
  map (fun i => sum_upto (shape1 x) (fun k => fmul (at2 x i k) (nth k b f0)))
      (seq 0 (shape0 x)).

(** The stored inputs and betas fit together: one beta per column and one
    response per row. *)
Definition consistent (s : LinearRegression F) (x : ndarray2 F) (y b : ndarray1 F) : Prop :=
  x_ s = Some x /\ y_ s = Some y /\ betas_ s = Some b /\
  length b = shape1 x /\ length y = shape0 x.

End Inputs.

(* ================================================================= *)
(** ** Printing *)

Section Printing.

Context {F : Type}.

(** The text Python's string formatting gives for a float. *)
Variable str_of_float : F -> string.

Definition newline : string := String "010"%char EmptyString.

Definition beta_line (ib : nat * F) : string :=
  "beta_" ++ NilZero.string_of_uint (Nat.to_uint (fst ib)) ++ ": "
  ++ str_of_float (snd ib).

Definition __repr__ : M F string :=
  bind get (fun self =>
    match betas_ self with
    | None => raise (TypeError "'NoneType' object is not iterable")
    | Some betas =>
        ret (String.concat newline (map beta_line (enumerate_from 0 betas)))
    end).

Definition __str__ : M F string := __repr__.

End Printing.

(** Further stand-ins and data for examples. *)
Module MoreExamples.

Open Scope float_scope.

(** The inverse of a 1 x 1 or 2 x 2 array in closed form. *)
Definition inv_small (A : ndarray2 float) : option (nat -> nat -> float) :=
  match shape0 A, shape1 A with
  | 1%nat, 1%nat =>
      let a := at2 A 0 0 in
      if PrimFloat.eqb a 0 then None else Some (fun _ _ => 1 / a)
  | _, _ => Examples.inv_2x2 A
  end.

(** A 1 x 1 array is taken as invertible when its entry is not zero. *)
Definition is_invertible_small (A : ndarray2 float) : bool :=
  match shape0 A, shape1 A with
  | 1%nat, 1%nat => negb (PrimFloat.eqb (at2 A 0 0) 0)
  | _, _ => Examples.is_invertible_2x2 A
  end.

(** Three observations and no predictor: an array of shape (3, 0). *)
Definition ys3 : ndarray1 float := [1; 2; 6].

(** Three observations of one predictor as an array of shape (3, 1). *)
Definition column3 : ndarray2 float :=
  Array2 3 1 (fun i _ => float_of_int (Z.of_nat i)).

(** An array of shape (3, 5). *)
Definition five_columns : ndarray2 float := Array2 3 5 (fun _ _ => 1).

End MoreExamples.

(* ================================================================= *)
(** ** Properties *)

Section Properties.

Context {F : Type} {SF : Scalar F}.

Variable inv_entries : ndarray2 F -> option (nat -> nat -> F).
Variable is_invertible_svd : ndarray2 F -> bool.
Variables np_min np_max np_median : ndarray1 F -> result F.
Variable np_percentile : ndarray1 F -> Z -> result F.

Local Abbreviation state := (LinearRegression F).
Local Abbreviation fit' := (fit inv_entries is_invertible_svd).

(** *** Shapes *)

Lemma shape0_preprocess (X : ArrayLike F) :
  shape0 (_preprocess_input_matrix X)
  = match X with Arr1 v => length v | Arr2 m => shape0 m end.
Proof. destruct X; reflexivity. Qed.

Lemma shape1_preprocess (X : ArrayLike F) :
  shape1 (_preprocess_input_matrix X)
  = S (match X with Arr1 _ => 1%nat | Arr2 m => shape1 m end).
Proof. destruct X; reflexivity. Qed.

(** The intercept column is the first one and holds ones; the columns of
    the input follow it. *)
Lemma include_intercept_column_entries (m : ndarray2 F) (i j : nat) :
  at2 (_include_intercept_column m) i 0 = f1 /\
  at2 (_include_intercept_column m) i (S j) = at2 m i j.
Proof.
  unfold _include_intercept_column, np_hstack, np_ones; simpl.
  now rewrite Nat.sub_0_r.
Qed.

Lemma matmul_transpose_self (X : ndarray2 F) :
  matmul (transpose X) X = Ok (gram X).
Proof.
  unfold matmul, transpose, gram; simpl.
  now rewrite Nat.eqb_refl.
Qed.

Lemma length_matvec (A : ndarray2 F) (v w : ndarray1 F) :
  matvec A v = Ok w -> length w = shape0 A /\ length v = shape1 A.
Proof.
  unfold matvec.
  destruct (shape1 A =? length v)%nat eqn:E; [|discriminate].
  intros [= <-]. rewrite length_map, length_seq.
  apply Nat.eqb_eq in E. now split.
Qed.

Lemma length_zip_with (op : F -> F -> F) (a b : ndarray1 F) :
  length a = length b -> length (zip_with op a b) = length a.
Proof.
  revert b; induction a as [|x a IH]; intros [|y b]; simpl; try easy.
  intros [= H]. now rewrite IH.
Qed.

(** *** The course of [fit] *)

(** Runs the assignments of [fit] one after the other, reading each
    attribute of the record that the previous assignment built. *)
Ltac run_fit :=
  cbv beta iota zeta delta
    [fit bind lift modify set_x_ set_y_ set_degrees_of_freedom
     set_num_predictors set_betas_ set_intercept_ set_coef_ set_trained
     _preprocess_input_vector
     name coef_ intercept_ betas_ degrees_of_freedom num_predictors trained
     compute_stats x_ y_].

Lemma fit_unfold (inv : ndarray2 F -> option (nat -> nat -> F))
  (is_invertible : ndarray2 F -> bool)
  (X : ArrayLike F) (y : ndarray1 F) (s : state) :
  let X' := _preprocess_input_matrix X in
  fit inv is_invertible X y s =
  if Z.of_nat (shape0 X') - Z.of_nat (shape1 X') <=? 0 then
    (Raise (ValueError "Degrees of freedom must be greater than 0."),
     stored s X' y)
  else if negb (is_invertible (gram X')) then
    (Raise (ValueError "Matrix is not invertible."), counted s X' y)
  else match inv (gram X') with
       | None => (Raise (LinAlgError "Singular matrix"), counted s X' y)
       | Some e =>
           if (shape0 X' =? length y)%nat then
             (Ok tt, fitted s X' y (normal_equations e X' y)
                            (nth 0 (normal_equations e X' y) f0))
           else (Raise (ValueError "matmul: mismatch in core dimension"),
                 counted s X' y)
       end.
Proof.
  intros X'.
  run_fit. fold X'.
  assert (Hc : exists c, shape1 X' = S c)
    by (eexists; apply shape1_preprocess).
  clearbody X'. destruct Hc as [c Hc].
  unfold _check_degrees_of_freedom.
  destruct (Z.of_nat (shape0 X') - Z.of_nat (shape1 X') <=? 0);
    [reflexivity|].
  rewrite matmul_transpose_self.
  unfold _check_is_matrix_invertible.
  destruct (is_invertible (gram X')); simpl; [|reflexivity].
  unfold np_linalg_inv; simpl. rewrite Nat.eqb_refl.
  destruct (inv (gram X')) as [e|]; [|reflexivity].
  unfold matmul; simpl. rewrite Nat.eqb_refl.
  unfold matvec; simpl.
  destruct (shape0 X' =? length y)%nat; [|reflexivity].
  unfold normal_equations, fitted. rewrite Hc. reflexivity.
Qed.

Lemma normal_equations_head (e : nat -> nat -> F) (X : ArrayLike F) (y : ndarray1 F) :
  let b := normal_equations e (_preprocess_input_matrix X) y in
  nth_error b 0 = Some (nth 0 b f0).
Proof.
  unfold normal_equations. rewrite shape1_preprocess. reflexivity.
Qed.

Lemma length_normal_equations (e : nat -> nat -> F) (X : ndarray2 F) (y : ndarray1 F) :
  length (normal_equations e X y) = shape1 X.
Proof. unfold normal_equations. now rewrite length_map, length_seq. Qed.

(** [fit] returns exactly on the inputs that pass the two checks, that
    [numpy.linalg.inv] inverts and whose response has one entry per row;
    the state it leaves depends on the prior state through [name] and
    [compute_stats] only. *)
Lemma fit_ok_inv (X : ArrayLike F) (y : ndarray1 F) (s s' : state) :
  let X' := _preprocess_input_matrix X in
  fit' X y s = (Ok tt, s') ->
  0 < Z.of_nat (shape0 X') - Z.of_nat (shape1 X') /\
  is_invertible_svd (gram X') = true /\
  shape0 X' = length y /\
  exists e, inv_entries (gram X') = Some e /\
            s' = fitted s X' y (normal_equations e X' y)
                        (nth 0 (normal_equations e X' y) f0).
Proof.
  intros X' H. rewrite fit_unfold in H. fold X' in H.
  destruct (Z.leb_spec (Z.of_nat (shape0 X') - Z.of_nat (shape1 X')) 0);
    [discriminate|].
  destruct (is_invertible_svd (gram X')); cbn [negb] in H; [|discriminate].
  destruct (inv_entries (gram X')) as [e|]; [|discriminate].
  destruct (Nat.eqb_spec (shape0 X') (length y)); [|discriminate].
  injection H as <-. repeat split; try assumption. now exists e.
Qed.

Lemma fit_raise_inv (X : ArrayLike F) (y : ndarray1 F) (s s' : state) (e : exn) :
  let X' := _preprocess_input_matrix X in
  fit' X y s = (Raise e, s') ->
  (Z.of_nat (shape0 X') - Z.of_nat (shape1 X') <= 0 /\
   e = ValueError "Degrees of freedom must be greater than 0." /\
   s' = stored s X' y)
  \/
  (0 < Z.of_nat (shape0 X') - Z.of_nat (shape1 X') /\
   e <> ValueError "Degrees of freedom must be greater than 0." /\
   s' = counted s X' y).
Proof.
  intros X' H. rewrite fit_unfold in H. fold X' in H.
  destruct (Z.leb_spec (Z.of_nat (shape0 X') - Z.of_nat (shape1 X')) 0).
  - injection H as <- <-. left. now repeat split.
  - right.
    destruct (is_invertible_svd (gram X')); cbn [negb] in H.
    + destruct (inv_entries (gram X')) as [e'|].
      * destruct (shape0 X' =? length y)%nat; [discriminate|].
        injection H as <- <-. now repeat split.
      * injection H as <- <-. now repeat split.
    + injection H as <- <-. now repeat split.
Qed.

(** C1.  On every input that [fit] accepts (positive degrees of freedom,
    [XtX] of the augmented matrix passing the invertibility check and
    inverted by [numpy.linalg.inv], one response per row), [fit] returns
    and has stored [betas_ = (XtX)^-1 Xt y] computed on the augmented
    matrix, [betas_[0]] as [intercept_] and [betas_[1:]] as [coef_]. *)
Theorem fit_solves_normal_equations
  (X : ArrayLike F) (y : ndarray1 F) (s : state) (XtX_inv : nat -> nat -> F) :
  let X' := _preprocess_input_matrix X in
  0 < Z.of_nat (shape0 X') - Z.of_nat (shape1 X') ->
  is_invertible_svd (gram X') = true ->
  inv_entries (gram X') = Some XtX_inv ->
  length y = shape0 X' ->
  exists s' betas b0,
    fit' X y s = (Ok tt, s') /\
    matmul (transpose X') X' = Ok (gram X') /\
    betas = normal_equations XtX_inv X' y /\
    betas_ s' = Some betas /\
    nth_error betas 0 = Some b0 /\
    intercept_ s' = Some b0 /\
    coef_ s' = Some (skipn 1 betas).
Proof.
  intros X' Hd Hi He Hy.
  exists (fitted s X' y (normal_equations XtX_inv X' y)
                 (nth 0 (normal_equations XtX_inv X' y) f0)).
  exists (normal_equations XtX_inv X' y).
  exists (nth 0 (normal_equations XtX_inv X' y) f0).
  split.
  - rewrite fit_unfold. fold X'.
    destruct (Z.leb_spec (Z.of_nat (shape0 X') - Z.of_nat (shape1 X')) 0); [lia|].
    rewrite Hi, He, Hy, Nat.eqb_refl. reflexivity.
  - split; [apply matmul_transpose_self|].
    repeat split.
Qed.

(** C2, as amended.  [fit] is not atomic.  Whenever it raises, the betas,
    the intercept, the coefficients and the trained flag keep the values
    they had before the call, but the stored X and y have already been
    replaced by the normalised inputs; on a degrees-of-freedom violation
    [degrees_of_freedom] and [num_predictors] are unchanged as well, and on
    every later failure they have already been replaced too. *)
Theorem fit_failure_frame
  (X : ArrayLike F) (y : ndarray1 F) (s s' : state) (e : exn) :
  let X' := _preprocess_input_matrix X in
  let d := Z.of_nat (shape0 X') - Z.of_nat (shape1 X') in
  fit' X y s = (Raise e, s') ->
  x_ s' = Some X' /\ y_ s' = Some y /\
  betas_ s' = betas_ s /\ intercept_ s' = intercept_ s /\
  coef_ s' = coef_ s /\ trained s' = trained s /\
  (d <= 0 ->
   degrees_of_freedom s' = degrees_of_freedom s /\
   num_predictors s' = num_predictors s) /\
  (0 < d ->
   degrees_of_freedom s' = Some d /\
   num_predictors s' = Some (Z.of_nat (shape1 X') - 1)).
Proof.
  intros X' d H.
  destruct (fit_raise_inv _ _ _ H) as [(Hd & _ & ->) | (Hd & _ & ->)];
    fold X' in Hd; fold d in Hd; simpl;
    repeat split; try reflexivity; intros; lia.
Qed.

(** C4.  When the augmented matrix has [n_rows - n_cols <= 0], [fit]
    raises the error whose message says that the degrees of freedom must
    be greater than 0, whatever the invertibility check and the inverse
    would answer; otherwise that error is not raised and
    [degrees_of_freedom] is stored as [n_rows - n_cols]. *)
Theorem fit_degrees_of_freedom_check
  (X : ArrayLike F) (y : ndarray1 F) (s : state) :
  let X' := _preprocess_input_matrix X in
  let d := Z.of_nat (shape0 X') - Z.of_nat (shape1 X') in
  (d <= 0 ->
   forall inv' is_invertible',
     fit inv' is_invertible' X y s =
     (Raise (ValueError "Degrees of freedom must be greater than 0."),
      stored s X' y)) /\
  (0 < d ->
   fst (fit' X y s)
   <> Raise (ValueError "Degrees of freedom must be greater than 0.") /\
   degrees_of_freedom (snd (fit' X y s)) = Some d).
Proof.
  intros X' d. split.
  - intros Hd inv' is_invertible'.
    rewrite fit_unfold. fold X'.
    destruct (Z.leb_spec (Z.of_nat (shape0 X') - Z.of_nat (shape1 X')) 0);
      [reflexivity|]. subst d. lia.
  - intros Hd.
    destruct (fit' X y s) as [[[]|e] s'] eqn:H.
    + apply fit_ok_inv in H. destruct H as (_ & _ & _ & e & _ & ->).
      split; [discriminate|reflexivity].
    + apply fit_raise_inv in H.
      destruct H as [(Hle & _) | (_ & Hne & ->)].
      * fold X' in Hle. subst d. lia.
      * split; [|reflexivity]. simpl. intros [= Heq]. now apply Hne.
Qed.

(** C5.  On an input that passes the degrees-of-freedom check and whose
    [XtX] the invertibility check rejects, [fit] raises the error saying
    that the matrix is not invertible, and the inverse is not computed: the
    outcome is the same whatever [numpy.linalg.inv] would do. *)
Theorem fit_singular_rejected
  (X : ArrayLike F) (y : ndarray1 F) (s : state) :
  let X' := _preprocess_input_matrix X in
  0 < Z.of_nat (shape0 X') - Z.of_nat (shape1 X') ->
  is_invertible_svd (gram X') = false ->
  matmul (transpose X') X' = Ok (gram X') /\
  forall inv',
    fit inv' is_invertible_svd X y s =
    (Raise (ValueError "Matrix is not invertible."), counted s X' y).
Proof.
  intros X' Hd Hi. split; [apply matmul_transpose_self|].
  intros inv'. rewrite fit_unfold. fold X'.
  destruct (Z.leb_spec (Z.of_nat (shape0 X') - Z.of_nat (shape1 X')) 0); [lia|].
  rewrite Hi. reflexivity.
Qed.

(** C7.  Fitting is idempotent: when [fit] accepts an input, a second call
    with the same input returns as well and leaves the estimator exactly
    as the first call left it, betas included. *)
Theorem fit_idempotent
  (X : ArrayLike F) (y : ndarray1 F) (s s1 : state) :
  fit' X y s = (Ok tt, s1) ->
  fit' X y s1 = (Ok tt, s1).
Proof.
  intros H.
  destruct (fit_ok_inv _ _ _ H) as (Hd & Hi & Hy & e & He & ->).
  rewrite fit_unfold.
  destruct (Z.leb_spec
              (Z.of_nat (shape0 (_preprocess_input_matrix X))
               - Z.of_nat (shape1 (_preprocess_input_matrix X))) 0); [lia|].
  rewrite Hi, He, Hy, Nat.eqb_refl. reflexivity.
Qed.

(** *** Methods that assign nothing *)

Lemma read_only_ret {A} (a : A) : read_only (@ret F A a).
Proof. now intros s. Qed.

Lemma read_only_raise {A} (e : exn) : read_only (@raise F A e).
Proof. now intros s. Qed.

Lemma read_only_lift {A} (r : result A) : read_only (@lift F A r).
Proof. now intros s. Qed.

Lemma read_only_get : read_only (@get F).
Proof. now intros s. Qed.

Lemma read_only_bind {A B} (m : M F A) (k : A -> M F B) :
  read_only m -> (forall a, read_only (k a)) -> read_only (bind m k).
Proof.
  intros Hm Hk s. unfold bind.
  specialize (Hm s). destruct (m s) as [[a|e] s1]; simpl in Hm; subst s1.
  - apply Hk.
  - reflexivity.
Qed.

Create HintDb read_only.
#[local] Hint Resolve read_only_ret read_only_raise read_only_lift
  read_only_get : read_only.

Ltac read_only_step :=
  match goal with
  | |- read_only (bind _ _) => apply read_only_bind; [|intros]
  | |- read_only (match ?x with _ => _ end) => destruct x
  | |- read_only (let _ := _ in _) => cbv zeta
  | |- read_only _ => solve [auto with read_only]
  end.

Ltac read_only_tac := repeat read_only_step.

Lemma read_only_get_x_ : read_only (@get_x_ F).
Proof. unfold get_x_. read_only_tac. Qed.

Lemma read_only_get_y_ : read_only (@get_y_ F).
Proof. unfold get_y_. read_only_tac. Qed.

#[local] Hint Resolve read_only_get_x_ read_only_get_y_ : read_only.

Lemma read_only_check_preprocess (X : ArrayLike F) :
  read_only (_check_preprocess_is_needed X).
Proof. unfold _check_preprocess_is_needed. read_only_tac. Qed.

#[local] Hint Resolve read_only_check_preprocess : read_only.

Lemma read_only_preprocess_if_needed (X : ArrayLike F) :
  read_only (_preprocess_input_mat_if_needed X).
Proof. unfold _preprocess_input_mat_if_needed. read_only_tac. Qed.

#[local] Hint Resolve read_only_preprocess_if_needed : read_only.

Lemma read_only_predict (X : ArrayLike F) : read_only (predict X).
Proof. unfold predict. read_only_tac. Qed.

#[local] Hint Resolve read_only_predict : read_only.

Lemma read_only_get_residuals : read_only (@get_residuals F SF).
Proof. unfold get_residuals. read_only_tac. Qed.

#[local] Hint Resolve read_only_get_residuals : read_only.

Lemma read_only_get_params : read_only (@get_params F).
Proof. unfold get_params. read_only_tac. Qed.

Lemma read_only_residuals_summary :
  read_only (get_residuals_summary_stats np_min np_max np_median np_percentile).
Proof. unfold get_residuals_summary_stats. read_only_tac. Qed.

Lemma read_only_residuals_variance : read_only (@_get_residuals_variance F SF).
Proof. unfold _get_residuals_variance. read_only_tac. Qed.

#[local] Hint Resolve read_only_residuals_variance : read_only.

Lemma read_only_covariance : read_only (_compute_covariance_matrix inv_entries).
Proof. unfold _compute_covariance_matrix. read_only_tac. Qed.

#[local] Hint Resolve read_only_covariance : read_only.

Lemma read_only_standard_errors : read_only (compute_standard_errors inv_entries).
Proof. unfold compute_standard_errors. read_only_tac. Qed.

#[local] Hint Resolve read_only_standard_errors : read_only.

Lemma read_only_t_statistics : read_only (compute_t_statistics inv_entries).
Proof. unfold compute_t_statistics. read_only_tac. Qed.

Lemma read_only_f_statistic : read_only (@compute_f_statistic F SF).
Proof. unfold compute_f_statistic. read_only_tac. Qed.

Lemma read_only_r_squared : read_only (@compute_r_squared F SF).
Proof. unfold compute_r_squared. read_only_tac. Qed.

#[local] Hint Resolve read_only_r_squared : read_only.

Lemma read_only_adjusted_r_squared : read_only (@compute_adjusted_r_squared F SF).
Proof. unfold compute_adjusted_r_squared. read_only_tac. Qed.

Lemma read_only_residual_standard_error :
  read_only (@get_residual_standard_error F SF).
Proof. unfold get_residual_standard_error. read_only_tac. Qed.

Lemma read_only_save (path : string) : read_only (@save F path).
Proof. unfold save. read_only_tac. Qed.

Lemma read_only_load (path : string) : read_only (@load F path).
Proof. unfold load. read_only_tac. Qed.

(** *** The check that decides on re-augmentation *)

Lemma check_preprocess_eq (m : ndarray2 F) (s : state) :
  _check_preprocess_is_needed (Arr2 m) s
  = (Ok (negb (shape1 m =? beta_len s)%nat), s).
Proof.
  unfold _check_preprocess_is_needed, bind, get, lift, beta_len; simpl.
  now destruct (negb (shape1 m =? _)%nat).
Qed.

Lemma preprocess_if_needed_eq (m : ndarray2 F) (s : state) :
  _preprocess_input_mat_if_needed (Arr2 m) s
  = (Ok (if negb (shape1 m =? beta_len s)%nat
         then _include_intercept_column m else m), s).
Proof.
  unfold _preprocess_input_mat_if_needed, bind.
  rewrite check_preprocess_eq.
  now destruct (negb (shape1 m =? beta_len s)%nat).
Qed.

Lemma predict_eq (m : ndarray2 F) (s : state) :
  predict (Arr2 m) s
  = (matmul_attr (if negb (shape1 m =? beta_len s)%nat
                  then _include_intercept_column m else m) (betas_ s), s).
Proof.
  unfold predict, bind. rewrite preprocess_if_needed_eq. reflexivity.
Qed.

(** C9, as amended.  For a two-dimensional [X] the check returns true
    exactly when the number of columns of [X] differs from the length of
    the current coefficient vector, and that length is taken to be 0 while
    no fit has occurred: before any fit the check is true for every [X]
    with at least one column and false for an [X] without columns.
    [predict] re-applies the intercept augmentation exactly when the check
    is true and otherwise uses [X] as it is. *)
Theorem check_preprocess_is_needed_spec (m : ndarray2 F) (s : state) :
  _check_preprocess_is_needed (Arr2 m) s
  = (Ok (negb (shape1 m =? beta_len s)%nat), s) /\
  (betas_ s = None ->
   fst (_check_preprocess_is_needed (Arr2 m) s) = Ok (0 <? shape1 m)%nat) /\
  _preprocess_input_mat_if_needed (Arr2 m) s
  = (Ok (if negb (shape1 m =? beta_len s)%nat
         then _preprocess_input_matrix (Arr2 m) else m), s) /\
  predict (Arr2 m) s
  = (matmul_attr (if negb (shape1 m =? beta_len s)%nat
                  then _preprocess_input_matrix (Arr2 m) else m) (betas_ s), s).
Proof.
  split; [apply check_preprocess_eq|].
  split; [|split; [apply preprocess_if_needed_eq | apply predict_eq]].
  intros Hb. rewrite check_preprocess_eq. unfold beta_len. rewrite Hb. simpl.
  now destruct (shape1 m).
Qed.

(** *** The fitted state *)

Lemma fitted_uses_stored_matrix
  (s : state) (x : ndarray2 F) (y : ndarray1 F) (e : nat -> nat -> F) (b0 : F) :
  let b := normal_equations e x y in
  let s' := fitted s x y b b0 in
  _preprocess_input_mat_if_needed (Arr2 x) s' = (Ok x, s') /\
  predict (Arr2 x) s'
  = (Ok (map (fun i => sum_upto (shape1 x)
                         (fun k => fmul (at2 x i k) (nth k b f0)))
             (seq 0 (shape0 x))), s').
Proof.
  intros b s'.
  assert (Hb : length b = shape1 x) by apply length_normal_equations.
  assert (Hlen : beta_len s' = shape1 x) by exact Hb.
  split.
  - rewrite preprocess_if_needed_eq, Hlen, Nat.eqb_refl. reflexivity.
  - rewrite predict_eq, Hlen, Nat.eqb_refl.
    cbn [negb]. change (betas_ s') with (Some b).
    unfold matmul_attr, matvec. now rewrite Hb, Nat.eqb_refl.
Qed.

(** C10.  After every successful [fit], [len(betas_)] is the number of
    columns of the stored augmented matrix, [len(coef_)] is
    [num_predictors], which is [len(betas_) - 1], and
    [degrees_of_freedom] is [rows(x_) - len(betas_)] and positive; no
    method other than [fit] assigns an attribute, and [predict(x_)] uses
    the stored matrix as it is, without augmenting it again. *)
Theorem fitted_state_invariant
  (X : ArrayLike F) (y : ndarray1 F) (s s' : state) :
  fit' X y s = (Ok tt, s') ->
  (exists x b c,
     x_ s' = Some x /\ betas_ s' = Some b /\ coef_ s' = Some c /\
     length b = shape1 x /\
     num_predictors s' = Some (Z.of_nat (length c)) /\
     Z.of_nat (length c) = Z.of_nat (length b) - 1 /\
     degrees_of_freedom s'
     = Some (Z.of_nat (shape0 x) - Z.of_nat (length b)) /\
     0 < Z.of_nat (shape0 x) - Z.of_nat (length b) /\
     _preprocess_input_mat_if_needed (Arr2 x) s' = (Ok x, s') /\
     predict (Arr2 x) s' = (matvec x b, s')) /\
  ((forall X0, read_only (@predict F SF X0)) /\
   read_only (@get_params F) /\
   read_only (@get_residuals F SF) /\
   read_only (get_residuals_summary_stats np_min np_max np_median np_percentile) /\
   read_only (compute_standard_errors inv_entries) /\
   read_only (compute_t_statistics inv_entries) /\
   read_only (@compute_f_statistic F SF) /\
   read_only (@compute_r_squared F SF) /\
   read_only (@compute_adjusted_r_squared F SF) /\
   read_only (@get_residual_standard_error F SF) /\
   (forall path, read_only (@save F path)) /\
   (forall path, read_only (@load F path))).
Proof.
  intros H. split.
  - destruct (fit_ok_inv _ _ _ H) as (Hd & Hi & Hy & e & He & ->).
    assert (Hc : exists c, shape1 (_preprocess_input_matrix X) = S c)
      by (eexists; apply shape1_preprocess).
    set (X' := _preprocess_input_matrix X) in *. clearbody X'.
    destruct Hc as [c Hc].
    set (b := normal_equations e X' y).
    assert (Hb : length b = shape1 X') by apply length_normal_equations.
    destruct (fitted_uses_stored_matrix s X' y e (nth 0 b f0)) as [Hpre Hpred].
    fold b in Hpre, Hpred.
    assert (Hm : matvec X' b
                 = Ok (map (fun i => sum_upto (shape1 X')
                                       (fun k => fmul (at2 X' i k) (nth k b f0)))
                           (seq 0 (shape0 X')))).
    { unfold matvec. now rewrite Hb, Nat.eqb_refl. }
    clearbody b.
    exists X', b, (skipn 1 b).
    unfold fitted in *. cbn [x_ betas_ coef_ num_predictors degrees_of_freedom].
    rewrite length_skipn, Hb, Hm.
    repeat split; try assumption; try (f_equal; lia); lia.
  - repeat split; intros;
      auto using read_only_predict, read_only_get_params,
        read_only_get_residuals, read_only_residuals_summary,
        read_only_standard_errors, read_only_t_statistics,
        read_only_f_statistic, read_only_r_squared,
        read_only_adjusted_r_squared, read_only_residual_standard_error,
        read_only_save, read_only_load.
Qed.

(** *** The residual standard error *)

Lemma np_std_population (v : ndarray1 F) :
  np_std v = population_std (length v) v.
Proof.
  unfold np_std, population_std, np_mean, np_sum, np_square.
  now rewrite map_map.
Qed.

Lemma broadcast_same_length (op : F -> F -> F) (a b : ndarray1 F) :
  length a = length b -> broadcast op a b = Ok (zip_with op a b).
Proof. intros H. unfold broadcast. now rewrite H, Nat.eqb_refl. Qed.

(** C8.  On a fitted estimator [get_residual_standard_error] returns the
    population standard deviation of the residuals
    [y_true - predict(X_train)]: the divisor is the number [n] of
    observations, not the degrees of freedom. *)
Theorem residual_standard_error_is_population_std
  (X : ArrayLike F) (y : ndarray1 F) (s s' : state) :
  fit' X y s = (Ok tt, s') ->
  exists x b y_pred residuals,
    x_ s' = Some x /\ y_ s' = Some y /\ betas_ s' = Some b /\
    predict (Arr2 x) s' = (Ok y_pred, s') /\
    y_pred = map (fun i => sum_upto (shape1 x)
                             (fun k => fmul (at2 x i k) (nth k b f0)))
                 (seq 0 (shape0 x)) /\
    residuals = zip_with fsub y y_pred /\
    get_residuals s' = (Ok residuals, s') /\
    length residuals = shape0 x /\
    get_residual_standard_error s'
    = (Ok (population_std (shape0 x) residuals), s').
Proof.
  intros H.
  destruct (fit_ok_inv _ _ _ H) as (Hd & Hi & Hy & e & He & ->).
  set (X' := _preprocess_input_matrix X) in *.
  set (b := normal_equations e X' y).
  set (s' := fitted s X' y b (nth 0 b f0)).
  destruct (fitted_uses_stored_matrix s X' y e (nth 0 b f0)) as [_ Hp].
  fold b s' in Hp.
  set (y_pred := map (fun i => sum_upto (shape1 X')
                                 (fun k => fmul (at2 X' i k) (nth k b f0)))
                     (seq 0 (shape0 X'))) in *.
  assert (Hlp : length y = length y_pred).
  { unfold y_pred. now rewrite length_map, length_seq. }
  assert (Hr : get_residuals s' = (Ok (zip_with fsub y y_pred), s')).
  { unfold get_residuals, bind, get_y_, get_x_, get, ret, lift; simpl.
    rewrite Hp. unfold _preprocess_input_vector.
    now rewrite broadcast_same_length. }
  assert (Hl : length (zip_with fsub y y_pred) = shape0 X').
  { rewrite length_zip_with by assumption. now symmetry. }
  exists X', b, y_pred, (zip_with fsub y y_pred).
  repeat split; try assumption.
  unfold get_residual_standard_error, bind, ret. rewrite Hr.
  now rewrite np_std_population, Hl.
Qed.

(** *** The adjusted R squared *)

(** What line 112 computes from R squared and the two stored counts: the
    factor applied to [1 - R^2] is [num_predictors / degrees_of_freedom]. *)
Lemma adjusted_r_squared_formula (s : state) (r_squared : F) (p d : Z) :
  compute_r_squared s = (Ok r_squared, s) ->
  num_predictors s = Some p ->
  degrees_of_freedom s = Some d ->
  compute_adjusted_r_squared s
  = (Ok (fsub f1 (fdiv (fmul (fsub f1 r_squared) (of_int p)) (of_int d))), s).
Proof.
  intros Hr Hp Hd.
  unfold compute_adjusted_r_squared, bind. rewrite Hr.
  unfold get, lift, ret. now rewrite Hp, Hd.
Qed.

(** *** Calls on an estimator that was never fitted *)

Lemma never_fitted_none (s : state) :
  @never_fitted F SF inv_entries is_invertible_svd s ->
  betas_ s = None /\ coef_ s = None.
Proof.
  induction 1 as [cs | s X y e s' _ [IHb IHc] Hfit].
  - now split.
  - apply fit_raise_inv in Hfit.
    destruct Hfit as [(_ & _ & ->) | (_ & _ & ->)]; now split.
Qed.

Lemma builtin_not_NotFittedError (e : exn) :
  In (exn_class e) builtin_classes -> exn_class e <> "NotFittedError".
Proof.
  unfold builtin_classes. simpl.
  intros [H | [H | [H | [H | []]]]]; rewrite <- H; discriminate.
Qed.

Lemma raises_builtin_bind_raise {A B} (m : M F A) (k : A -> M F B) (s : state) :
  raises_builtin m s -> raises_builtin (bind m k) s.
Proof.
  intros (e & He & Hin). exists e. split; [|assumption].
  unfold bind. destruct (m s) as [[a|e'] s1]; simpl in *; congruence.
Qed.

Lemma raises_builtin_bind_ok {A B} (m : M F A) (k : A -> M F B) (s : state) (a : A) :
  m s = (Ok a, s) -> raises_builtin (k a) s -> raises_builtin (bind m k) s.
Proof.
  intros Hm (e & He & Hin). exists e. split; [|assumption].
  unfold bind. now rewrite Hm.
Qed.

Lemma get_x_cases (s : state) :
  (exists x, get_x_ s = (Ok x, s)) \/ raises_builtin (@get_x_ F) s.
Proof.
  unfold raises_builtin, get_x_, bind, get, ret, raise.
  destruct (x_ s) as [x|]; [left; now exists x|right].
  eexists; split; [reflexivity|simpl; tauto].
Qed.

Lemma get_y_cases (s : state) :
  (exists y, get_y_ s = (Ok y, s)) \/ raises_builtin (@get_y_ F) s.
Proof.
  unfold raises_builtin, get_y_, bind, get, ret, raise.
  destruct (y_ s) as [y|]; [left; now exists y|right].
  eexists; split; [reflexivity|simpl; tauto].
Qed.

Section Unfitted.

Variable s : state.
Hypothesis betas_none : betas_ s = None.
Hypothesis coef_none : coef_ s = None.

Lemma predict_unfitted (X : ArrayLike F) : raises_builtin (predict X) s.
Proof.
  destruct X as [v|m].
  - unfold raises_builtin, predict, _preprocess_input_mat_if_needed,
      _check_preprocess_is_needed, bind, get, lift; simpl.
    eexists; split; [reflexivity|simpl; tauto].
  - unfold raises_builtin. rewrite predict_eq, betas_none. simpl.
    eexists; split; [reflexivity|simpl; tauto].
Qed.

Lemma get_params_unfitted : raises_builtin (@get_params F) s.
Proof.
  unfold raises_builtin, get_params, bind, get, raise. rewrite coef_none.
  eexists; split; [reflexivity|simpl; tauto].
Qed.

Ltac after_get_x_ :=
  let x := fresh "x" in
  let Hx := fresh "Hx" in
  destruct (get_x_cases s) as [[x Hx]|Hx];
  [ apply (raises_builtin_bind_ok _ _ Hx)
  | now apply raises_builtin_bind_raise ].

Ltac after_get_y_ :=
  let y := fresh "y" in
  let Hy := fresh "Hy" in
  destruct (get_y_cases s) as [[y Hy]|Hy];
  [ apply (raises_builtin_bind_ok _ _ Hy)
  | now apply raises_builtin_bind_raise ].

Lemma get_residuals_unfitted : raises_builtin (@get_residuals F SF) s.
Proof.
  unfold get_residuals. after_get_y_. after_get_x_.
  apply raises_builtin_bind_raise, predict_unfitted.
Qed.

Lemma compute_r_squared_unfitted : raises_builtin (@compute_r_squared F SF) s.
Proof.
  unfold compute_r_squared. after_get_x_.
  apply raises_builtin_bind_raise, predict_unfitted.
Qed.

Lemma compute_f_statistic_unfitted : raises_builtin (@compute_f_statistic F SF) s.
Proof.
  unfold compute_f_statistic. after_get_x_.
  apply raises_builtin_bind_raise, predict_unfitted.
Qed.

Lemma compute_adjusted_r_squared_unfitted :
  raises_builtin (@compute_adjusted_r_squared F SF) s.
Proof.
  apply raises_builtin_bind_raise, compute_r_squared_unfitted.
Qed.

Lemma get_residual_standard_error_unfitted :
  raises_builtin (@get_residual_standard_error F SF) s.
Proof. apply raises_builtin_bind_raise, get_residuals_unfitted. Qed.

Lemma get_residuals_summary_stats_unfitted :
  raises_builtin
    (get_residuals_summary_stats np_min np_max np_median np_percentile) s.
Proof. apply raises_builtin_bind_raise, get_residuals_unfitted. Qed.

Lemma compute_standard_errors_unfitted :
  raises_builtin (compute_standard_errors inv_entries) s.
Proof.
  do 3 apply raises_builtin_bind_raise. apply get_residuals_unfitted.
Qed.

Lemma compute_t_statistics_unfitted :
  raises_builtin (compute_t_statistics inv_entries) s.
Proof. apply raises_builtin_bind_raise, compute_standard_errors_unfitted. Qed.

End Unfitted.

Lemma sum_squared_residuals_returns (y_pred y_true : ndarray1 F) :
  length y_pred = length y_true ->
  _compute_sum_squared_residuals y_pred y_true
  = Ok (np_sum (np_square (zip_with fsub y_true y_pred))).
Proof.
  intros H. unfold _compute_sum_squared_residuals.
  now rewrite broadcast_same_length.
Qed.

(** C3, as amended.  On an estimator on which no fit has succeeded,
    [predict] and every diagnostic that reads the fit state (residuals,
    standard errors, t-statistics, F-statistic, R squared, adjusted R
    squared, residual standard error, residuals summary, parameter dict)
    raise, and what they raise is one of Python's and numpy's own
    exceptions ([AttributeError], [TypeError], [ValueError], [IndexError]),
    never a [NotFittedError]; the sums of squares take their vectors as
    arguments, do not read the fit state and return on vectors of equal
    length. *)
Theorem unfitted_calls_raise_builtin (s : state) :
  @never_fitted F SF inv_entries is_invertible_svd s ->
  (forall X, raises_builtin (predict X) s) /\
  raises_builtin (@get_residuals F SF) s /\
  raises_builtin (compute_standard_errors inv_entries) s /\
  raises_builtin (compute_t_statistics inv_entries) s /\
  raises_builtin (@compute_f_statistic F SF) s /\
  raises_builtin (@compute_r_squared F SF) s /\
  raises_builtin (@compute_adjusted_r_squared F SF) s /\
  raises_builtin (@get_residual_standard_error F SF) s /\
  raises_builtin
    (get_residuals_summary_stats np_min np_max np_median np_percentile) s /\
  raises_builtin (@get_params F) s /\
  (forall e, In (exn_class e) builtin_classes ->
             exn_class e <> "NotFittedError") /\
  (forall y_pred y_true,
     length y_pred = length y_true ->
     is_ok (_compute_sum_squared_residuals y_pred y_true) = true).
Proof.
  intros H. destruct (never_fitted_none H) as [Hb Hc].
  repeat match goal with |- _ /\ _ => split end.
  - intros X. now apply predict_unfitted.
  - now apply get_residuals_unfitted.
  - now apply compute_standard_errors_unfitted.
  - now apply compute_t_statistics_unfitted.
  - now apply compute_f_statistic_unfitted.
  - now apply compute_r_squared_unfitted.
  - now apply compute_adjusted_r_squared_unfitted.
  - now apply get_residual_standard_error_unfitted.
  - now apply get_residuals_summary_stats_unfitted.
  - now apply get_params_unfitted.
  - apply builtin_not_NotFittedError.
  - intros yp yt Hl. now rewrite sum_squared_residuals_returns.
Qed.

End Properties.

(* ================================================================= *)
(** ** Worked examples on binary64 *)

Module Worked.

Import Examples.

Lemma pair_of_fst {A B} (r : A * B) (a : A) : fst r = a -> r = (a, snd r).
Proof. intros <-. now destruct r. Defined.

Lemma fit_ex_accepts : fit_ex xs ys fresh = (Ok tt, trained_ex).
Proof.
  apply (@pair_of_fst _ _ (fit_ex xs ys fresh) (Ok tt)). vm_compute. reflexivity.
Defined.

(** The normal equations on the six observations. *)
Lemma fit_solves_normal_equations_witness :
  exists s' betas b0,
    fit_ex xs ys fresh = (Ok tt, s') /\
    betas_ s' = Some betas /\
    nth_error betas 0 = Some b0 /\
    intercept_ s' = Some b0 /\
    coef_ s' = Some (skipn 1 betas).
Proof.
  destruct (fit_solves_normal_equations inv_2x2 is_invertible_2x2 xs ys fresh
              (XtX_inv := match inv_2x2 (gram (_preprocess_input_matrix xs)) with
                          | Some e => e
                          | None => fun _ _ => 0%float
                          end))
    as (s' & betas & b0 & H & _ & _ & Hb & H0 & Hi & Hc).
  - vm_compute. reflexivity.
  - vm_compute. reflexivity.
  - vm_compute. reflexivity.
  - reflexivity.
  - exists s', betas, b0. repeat split; assumption.
Defined.

(** C2: a call that raises has already replaced the stored inputs, and a
    call that raises on the invertibility check has replaced the two
    counts as well. *)
Lemma fit_not_atomic :
  (fst (fit_ex xs_short ys_short fresh)
   = Raise (ValueError "Degrees of freedom must be greater than 0.") /\
   x_ (snd (fit_ex xs_short ys_short fresh)) <> x_ fresh /\
   y_ (snd (fit_ex xs_short ys_short fresh)) <> y_ fresh) /\
  (fst (fit_ex xs_constant ys_constant trained_ex)
   = Raise (ValueError "Matrix is not invertible.") /\
   y_ (snd (fit_ex xs_constant ys_constant trained_ex)) <> y_ trained_ex /\
   degrees_of_freedom (snd (fit_ex xs_constant ys_constant trained_ex))
   <> degrees_of_freedom trained_ex).
Proof.
  repeat split; try (vm_compute; reflexivity); vm_compute; discriminate.
Qed.

Lemma fit_failure_frame_witness :
  let s' := snd (fit_ex xs_constant ys_constant trained_ex) in
  betas_ s' = betas_ trained_ex /\ coef_ s' = coef_ trained_ex /\
  degrees_of_freedom s' = Some 2%Z.
Proof.
  intros s'.
  destruct (fit_failure_frame inv_2x2 is_invertible_2x2
              xs_constant ys_constant trained_ex
              (s' := s') (e := ValueError "Matrix is not invertible."))
    as (_ & _ & Hb & _ & Hc & _ & _ & Hd).
  - apply (@pair_of_fst _ _ (fit_ex xs_constant ys_constant trained_ex)
             (Raise (ValueError "Matrix is not invertible."))).
    vm_compute. reflexivity.
  - destruct Hd as [Hd _]; [vm_compute; reflexivity|].
    split; [exact Hb|]. split; [exact Hc|exact Hd].
Defined.

(** C3: [predict] on a fresh estimator raises numpy's [ValueError], and
    [compute_r_squared] an [AttributeError]. *)
Lemma predict_unfitted_not_NotFittedError :
  fst (predict (Arr2 two_columns) fresh)
  = Raise (ValueError "matmul: operand does not have enough dimensions") /\
  fst (compute_r_squared fresh)
  = Raise (AttributeError "'LinearRegression' object has no attribute 'x_'") /\
  ~ (exists msg, fst (predict (Arr2 two_columns) fresh)
                 = Raise (Exception "NotFittedError" msg)).
Proof.
  split; [reflexivity|]. split; [reflexivity|].
  intros [msg H]. vm_compute in H. discriminate.
Qed.

Lemma unfitted_calls_raise_builtin_witness :
  raises_builtin (predict (Arr2 two_columns)) fresh /\
  raises_builtin (@compute_r_squared float _) fresh /\
  raises_builtin (@get_params float) fresh.
Proof.
  destruct (unfitted_calls_raise_builtin
              (inv_entries := inv_2x2) (is_invertible_svd := is_invertible_2x2)
              np_min np_max np_median np_percentile (s := fresh))
    as (Hp & _ & _ & _ & _ & Hr & _ & _ & _ & Hg & _).
  - apply never_fitted_init.
  - repeat split; [apply Hp | exact Hr | exact Hg].
Defined.

Lemma fit_degrees_of_freedom_check_witness :
  fit_ex xs_short ys_short fresh
  = (Raise (ValueError "Degrees of freedom must be greater than 0."),
     stored fresh (_preprocess_input_matrix xs_short) ys_short) /\
  degrees_of_freedom (snd (fit_ex xs ys fresh)) = Some 4%Z.
Proof.
  split.
  - apply (proj1 (fit_degrees_of_freedom_check inv_2x2 is_invertible_2x2
                    xs_short ys_short fresh)).
    vm_compute. discriminate.
  - apply (proj2 (fit_degrees_of_freedom_check inv_2x2 is_invertible_2x2
                    xs ys fresh)).
    vm_compute. reflexivity.
Defined.

Lemma fit_singular_rejected_witness :
  fit inv_2x2 is_invertible_2x2 xs_constant ys_constant fresh
  = (Raise (ValueError "Matrix is not invertible."),
     counted fresh (_preprocess_input_matrix xs_constant) ys_constant) /\
  fit (fun _ => None) is_invertible_2x2 xs_constant ys_constant fresh
  = (Raise (ValueError "Matrix is not invertible."),
     counted fresh (_preprocess_input_matrix xs_constant) ys_constant).
Proof.
  assert (H := proj2 (fit_singular_rejected is_invertible_2x2
                        xs_constant ys_constant fresh
                        ltac:(vm_compute; reflexivity)
                        ltac:(vm_compute; reflexivity))).
  split; apply H.
Defined.

Lemma fit_idempotent_witness : fit_ex xs ys trained_ex = (Ok tt, trained_ex).
Proof.
  apply (fit_idempotent inv_2x2 is_invertible_2x2 xs ys fresh).
  exact fit_ex_accepts.
Defined.

(** C6.  On the six observations [fit] leaves one predictor and four
    degrees of freedom, R squared is about 0.99411 and the adjusted value
    that [compute_adjusted_r_squared] returns is about 0.99853: it exceeds
    R squared. *)
Theorem adjusted_r_squared_exceeds_r_squared :
  fst (fit_ex xs ys fresh) = Ok tt /\
  num_predictors trained_ex = Some 1%Z /\
  degrees_of_freedom trained_ex = Some 4%Z /\
  exists r_squared adjusted,
    fst (compute_r_squared trained_ex) = Ok r_squared /\
    fst (compute_adjusted_r_squared trained_ex) = Ok adjusted /\
    fle adjusted r_squared = false /\
    fle r_squared adjusted = true /\
    adjusted = fsub f1 (fdiv (fmul (fsub f1 r_squared) (of_int 1%Z)) (of_int 4%Z)).
Proof.
  split; [vm_compute; reflexivity|].
  split; [vm_compute; reflexivity|].
  split; [vm_compute; reflexivity|].
  eexists. eexists.
  split; [vm_compute; reflexivity|].
  split; [vm_compute; reflexivity|].
  repeat split; vm_compute; reflexivity.
Qed.

Lemma residual_standard_error_witness :
  exists residuals,
    get_residuals trained_ex = (Ok residuals, trained_ex) /\
    length residuals = 6%nat /\
    get_residual_standard_error trained_ex
    = (Ok (population_std 6 residuals), trained_ex).
Proof.
  destruct (residual_standard_error_is_population_std
              inv_2x2 is_invertible_2x2 xs ys fresh fit_ex_accepts)
    as (x & b & y_pred & r & Hx & _ & _ & _ & _ & _ & Hr & Hl & He).
  assert (Hn : shape0 x = 6%nat).
  { assert (H : Some x = Some (_preprocess_input_matrix xs)) by (now rewrite <- Hx).
    injection H as ->. reflexivity. }
  rewrite Hn in *.
  exists r. repeat split; assumption.
Defined.

(** C9: before any fit the check answers false on an array without
    columns. *)
Lemma check_preprocess_not_unconditional :
  betas_ fresh = None /\
  fst (_check_preprocess_is_needed (Arr2 no_columns) fresh) = Ok false.
Proof. split; reflexivity. Qed.

Lemma check_preprocess_is_needed_witness :
  fst (_check_preprocess_is_needed (Arr2 two_columns) fresh) = Ok true.
Proof.
  apply (proj1 (proj2 (check_preprocess_is_needed_spec two_columns fresh))).
  reflexivity.
Defined.

Lemma fitted_state_invariant_witness :
  exists x b,
    x_ trained_ex = Some x /\ betas_ trained_ex = Some b /\
    length b = shape1 x /\
    predict (Arr2 x) trained_ex = (matvec x b, trained_ex).
Proof.
  destruct (fitted_state_invariant inv_2x2 is_invertible_2x2
              np_min np_max np_median np_percentile xs ys fresh fit_ex_accepts)
    as [(x & b & c & Hx & Hb & _ & Hl & _ & _ & _ & _ & _ & Hp) _].
  exists x, b. repeat split; assumption.
Defined.

End Worked.

(* ================================================================= *)
(** ** Further properties of the estimator *)

Section More.

Context {F : Type} {SF : Scalar F}.

Variable inv_entries : ndarray2 F -> option (nat -> nat -> F).
Variable is_invertible_svd : ndarray2 F -> bool.

Local Abbreviation state := (LinearRegression F).
Local Abbreviation fit' := (fit inv_entries is_invertible_svd).

(** *** Input normalisation *)

(** X14.  [_preprocess_input_matrix] keeps the rows, adds one column in
    front that holds ones, and moves every input column one place to the
    right; a one-dimensional input counts as a single column. *)
Theorem preprocess_input_matrix_layout (X : ArrayLike F) (i j : nat) :
  let X' := _preprocess_input_matrix X in
  shape0 X' = rows X /\
  shape1 X' = S (predictors X) /\
  at2 X' i 0 = f1 /\
  at2 X' i (S j) = entry X i j.
Proof.
  destruct X as [v|m]; simpl; try rewrite Nat.sub_0_r; repeat split.
Qed.

(** *** predict *)

Lemma matvec_ok (A : ndarray2 F) (v : ndarray1 F) :
  shape1 A = length v ->
  matvec A v
  = Ok (map (fun i => sum_upto (shape1 A)
                        (fun k => fmul (at2 A i k) (nth k v f0)))
            (seq 0 (shape0 A))).
Proof. intros H. unfold matvec. now rewrite H, Nat.eqb_refl. Qed.

Lemma matvec_mismatch (A : ndarray2 F) (v : ndarray1 F) :
  shape1 A <> length v ->
  matvec A v = Raise (ValueError "matmul: mismatch in core dimension").
Proof.
  intros H. unfold matvec.
  destruct (Nat.eqb_spec (shape1 A) (length v)); [contradiction|reflexivity].
Qed.

Lemma predict_augments_raw (m : ndarray2 F) (s : state) (b : ndarray1 F) :
  betas_ s = Some b ->
  length b = S (shape1 m) ->
  predict (Arr2 m) s = (matvec (_include_intercept_column m) b, s) /\
  predict (Arr2 (_include_intercept_column m)) s
  = (matvec (_include_intercept_column m) b, s) /\
  matvec (_include_intercept_column m) b
  = Ok (predictions (_include_intercept_column m) b).
Proof.
  intros Hb Hl.
  assert (Hlen : beta_len s = S (shape1 m)) by (unfold beta_len; now rewrite Hb).
  assert (Hne : (shape1 m =? S (shape1 m))%nat = false)
    by (apply Nat.eqb_neq; lia).
  split; [|split].
  - rewrite predict_eq, Hlen, Hne, Hb. reflexivity.
  - rewrite predict_eq, Hlen, Hb.
    change (shape1 (_include_intercept_column m)) with (S (shape1 m)).
    now rewrite Nat.eqb_refl.
  - apply matvec_ok. now rewrite Hl.
Qed.

(** X1.  Once betas are stored, [predict] gives the same predictions for a
    raw matrix of predictors and for that matrix with the intercept column
    already in front, one prediction per row. *)
Theorem predict_raw_and_augmented_agree
  (m : ndarray2 F) (s : state) (b : ndarray1 F) :
  betas_ s = Some b ->
  length b = S (shape1 m) ->
  predict (Arr2 m) s = predict (Arr2 (_include_intercept_column m)) s /\
  exists y_pred,
    predict (Arr2 m) s = (Ok y_pred, s) /\ length y_pred = shape0 m.
Proof.
  intros Hb Hl.
  destruct (predict_augments_raw m s Hb Hl) as (Hraw & Haug & Hm).
  split; [now rewrite Hraw, Haug|].
  rewrite Hraw, Hm.
  eexists. split; [reflexivity|].
  unfold predictions. now rewrite length_map, length_seq.
Qed.

(** X2.  Once betas are stored, [predict] raises numpy's shape error on a
    matrix whose number of columns is neither the number of betas nor one
    less, and assigns nothing. *)
Theorem predict_wrong_width_raises
  (m : ndarray2 F) (s : state) (b : ndarray1 F) :
  betas_ s = Some b ->
  shape1 m <> length b ->
  S (shape1 m) <> length b ->
  predict (Arr2 m) s
  = (Raise (ValueError "matmul: mismatch in core dimension"), s).
Proof.
  intros Hb H1 H2.
  assert (Hlen : beta_len s = length b) by (unfold beta_len; now rewrite Hb).
  rewrite predict_eq, Hlen, Hb.
  destruct (Nat.eqb_spec (shape1 m) (length b)); [contradiction|].
  cbn [negb matmul_attr]. now rewrite matvec_mismatch.
Qed.

(** X4.  Whenever [predict] returns on a matrix, it returns one value per
    row of that matrix and has assigned nothing. *)
Theorem predict_length
  (m : ndarray2 F) (s s' : state) (y_pred : ndarray1 F) :
  predict (Arr2 m) s = (Ok y_pred, s') ->
  length y_pred = shape0 m /\ s' = s.
Proof.
  rewrite predict_eq. intros H. injection H as H <-.
  split; [|reflexivity].
  destruct (betas_ s) as [b|]; [|discriminate].
  cbn [matmul_attr] in H.
  destruct (negb (shape1 m =? beta_len s)%nat);
    apply length_matvec in H; destruct H as [H _]; exact H.
Qed.

(** X3.  [fit] takes a one-dimensional X as a single predictor, but
    [predict] does not: on the estimator that such a fit leaves, [predict]
    raises [IndexError] on the very same one-dimensional input, while the
    input reshaped to a column is accepted and gives the predictions of
    the stored training matrix. *)
Theorem predict_one_dimensional_raises
  (v y : ndarray1 F) (s s' : state) :
  fit' (Arr1 v) y s = (Ok tt, s') ->
  predict (Arr1 v) s' = (Raise (IndexError "tuple index out of range"), s') /\
  exists x y_pred,
    x_ s' = Some x /\
    predict (Arr2 (reshape_column v)) s' = (Ok y_pred, s') /\
    predict (Arr2 x) s' = (Ok y_pred, s') /\
    length y_pred = length v.
Proof.
  intros H. split; [reflexivity|].
  destruct (fit_ok_inv _ _ _ _ _ H) as (_ & _ & _ & e & _ & ->).
  set (b := normal_equations e (_preprocess_input_matrix (Arr1 v)) y).
  assert (Hl : length b = 2%nat) by apply length_normal_equations.
  destruct (@predict_augments_raw (reshape_column v)
              (fitted s (_preprocess_input_matrix (Arr1 v)) y b (nth 0 b f0)) b
              eq_refl Hl) as (Hraw & Haug & Hm).
  rewrite Hm in Hraw, Haug.
  exists (_preprocess_input_matrix (Arr1 v)),
    (predictions (_include_intercept_column (reshape_column v)) b).
  split; [reflexivity|]. split; [exact Hraw|]. split; [exact Haug|].
  unfold predictions. now rewrite length_map, length_seq.
Qed.

(** *** fit *)

(** X6.  [fit] returns exactly when the augmented matrix has more rows
    than columns, [is_invertible_svd] accepts [XtX], [numpy.linalg.inv]
    delivers an inverse and the response has one entry per row; the prior
    state of the estimator plays no part. *)
Theorem fit_accepts_iff (X : ArrayLike F) (y : ndarray1 F) (s : state) :
  let X' := _preprocess_input_matrix X in
  fst (fit' X y s) = Ok tt <->
  (0 < Z.of_nat (shape0 X') - Z.of_nat (shape1 X') /\
   is_invertible_svd (gram X') = true /\
   (exists e, inv_entries (gram X') = Some e) /\
   length y = shape0 X').
Proof.
  intros X'. rewrite fit_unfold. fold X'.
  destruct (Z.leb_spec (Z.of_nat (shape0 X') - Z.of_nat (shape1 X')) 0).
  { split; [discriminate|]. intros (Hd & _). lia. }
  destruct (is_invertible_svd (gram X')); cbn [negb].
  2:{ split; [discriminate|]. intros (_ & Hi & _). discriminate. }
  destruct (inv_entries (gram X')) as [e|].
  2:{ split; [discriminate|]. intros (_ & _ & [e He] & _). discriminate. }
  destruct (Nat.eqb_spec (shape0 X') (length y)).
  - split; [|reflexivity]. intros _. repeat split; eauto.
  - split; [discriminate|]. intros (_ & _ & _ & Hy). congruence.
Qed.

(** X7.  A response whose length is not the number of rows is found only
    at the solve: [fit] then raises numpy's shape error, after the stored
    inputs and the two counts have been replaced and before any of betas,
    intercept and coefficients is. *)
Theorem fit_response_length_mismatch
  (X : ArrayLike F) (y : ndarray1 F) (s : state) (e : nat -> nat -> F) :
  let X' := _preprocess_input_matrix X in
  0 < Z.of_nat (shape0 X') - Z.of_nat (shape1 X') ->
  is_invertible_svd (gram X') = true ->
  inv_entries (gram X') = Some e ->
  length y <> shape0 X' ->
  fit' X y s
  = (Raise (ValueError "matmul: mismatch in core dimension"),
     counted s X' y) /\
  betas_ (snd (fit' X y s)) = betas_ s.
Proof.
  intros X' Hd Hi He Hy.
  assert (H : fit' X y s
              = (Raise (ValueError "matmul: mismatch in core dimension"),
                 counted s X' y)).
  { rewrite fit_unfold. fold X'.
    destruct (Z.leb_spec (Z.of_nat (shape0 X') - Z.of_nat (shape1 X')) 0);
      [lia|].
    rewrite Hi, He. cbn [negb].
    destruct (Nat.eqb_spec (shape0 X') (length y)); [congruence|reflexivity]. }
  split; [exact H|]. now rewrite H.
Qed.

(** X8.  When [is_invertible_svd] accepts [XtX] but [numpy.linalg.inv]
    reports a singular matrix, [fit] lets that [LinAlgError] through, with
    the stored inputs and the two counts already replaced. *)
Theorem fit_inverse_failure
  (X : ArrayLike F) (y : ndarray1 F) (s : state) :
  let X' := _preprocess_input_matrix X in
  0 < Z.of_nat (shape0 X') - Z.of_nat (shape1 X') ->
  is_invertible_svd (gram X') = true ->
  inv_entries (gram X') = None ->
  fit' X y s = (Raise (LinAlgError "Singular matrix"), counted s X' y).
Proof.
  intros X' Hd Hi He.
  rewrite fit_unfold. fold X'.
  destruct (Z.leb_spec (Z.of_nat (shape0 X') - Z.of_nat (shape1 X')) 0);
    [lia|].
  now rewrite Hi, He.
Qed.

(** X9.  [fit] raises the degrees-of-freedom error exactly on the inputs
    with fewer than two more observations than predictors: an empty input,
    and a one-dimensional input of at most two values, are always
    rejected. *)
Theorem fit_too_few_rows (X : ArrayLike F) (y : ndarray1 F) (s : state) :
  fst (fit' X y s)
  = Raise (ValueError "Degrees of freedom must be greater than 0.")
  <-> (rows X < predictors X + 2)%nat.
Proof.
  rewrite fit_unfold.
  rewrite shape0_preprocess, shape1_preprocess.
  fold (rows X). fold (predictors X).
  destruct (Z.leb_spec (Z.of_nat (rows X) - Z.of_nat (S (predictors X))) 0).
  - split; [lia|reflexivity].
  - split; [|lia]. intros H2. exfalso.
    destruct (is_invertible_svd _); cbn [negb] in H2; [|discriminate].
    destruct (inv_entries _); [|discriminate].
    destruct (_ =? _)%nat; discriminate.
Qed.

(** X10.  A successful [fit] replaces the whole fit state: on the same
    input it succeeds from any other prior state too, and the two
    resulting estimators agree on every attribute that [fit] assigns. *)
Theorem fit_overwrites_prior_state
  (X : ArrayLike F) (y : ndarray1 F) (s1 s1' s2 : state) :
  fit' X y s1 = (Ok tt, s1') ->
  exists s2',
    fit' X y s2 = (Ok tt, s2') /\
    x_ s2' = x_ s1' /\ y_ s2' = y_ s1' /\ betas_ s2' = betas_ s1' /\
    intercept_ s2' = intercept_ s1' /\ coef_ s2' = coef_ s1' /\
    degrees_of_freedom s2' = degrees_of_freedom s1' /\
    num_predictors s2' = num_predictors s1' /\
    trained s2' = true /\ trained s1' = true /\
    name s2' = name s2 /\ compute_stats s2' = compute_stats s2.
Proof.
  intros H.
  destruct (fit_ok_inv _ _ _ _ _ H) as (Hd & Hi & Hy & e & He & ->).
  eexists. split.
  - rewrite fit_unfold.
    destruct (Z.leb_spec
                (Z.of_nat (shape0 (_preprocess_input_matrix X))
                 - Z.of_nat (shape1 (_preprocess_input_matrix X))) 0); [lia|].
    rewrite Hi, He, Hy, Nat.eqb_refl. reflexivity.
  - repeat split.
Qed.

(** X16.  A matrix without columns is fitted as an intercept-only model:
    there is one beta, the intercept, no coefficient and no predictor, and
    [get_params] holds the intercept alone. *)
Theorem fit_no_predictors
  (m : ndarray2 F) (y : ndarray1 F) (s s' : state) :
  shape1 m = 0%nat ->
  fit' (Arr2 m) y s = (Ok tt, s') ->
  exists b0,
    betas_ s' = Some [b0] /\ intercept_ s' = Some b0 /\
    coef_ s' = Some [] /\ num_predictors s' = Some 0 /\
    degrees_of_freedom s' = Some (Z.of_nat (shape0 m) - 1) /\
    get_params s' = (Ok [("intercept", Some b0)], s').
Proof.
  intros Hm H.
  destruct (fit_ok_inv _ _ _ _ _ H) as (_ & _ & _ & e & _ & ->).
  unfold normal_equations.
  change (shape1 (_preprocess_input_matrix (Arr2 m))) with (S (shape1 m)).
  change (shape0 (_preprocess_input_matrix (Arr2 m))) with (shape0 m).
  rewrite Hm. cbn [seq map nth].
  eexists. repeat split.
  all: unfold fitted; cbn [num_predictors degrees_of_freedom];
    change (shape1 (_preprocess_input_matrix (Arr2 m))) with (S (shape1 m));
    change (shape0 (_preprocess_input_matrix (Arr2 m))) with (shape0 m);
    rewrite Hm; reflexivity.
Qed.

(** *** The parameter dictionary *)

Lemma length_enumerate_from (k : nat) (l : ndarray1 F) :
  length (enumerate_from k l) = length l.
Proof. revert k; induction l as [|x l IH]; intros k; simpl; auto. Qed.

Lemma nth_error_enumerate_from (k i : nat) (l : ndarray1 F) (c : F) :
  nth_error l i = Some c ->
  nth_error (enumerate_from k l) i = Some ((k + i)%nat, c).
Proof.
  revert k i; induction l as [|x l IH]; intros k [|i]; simpl; try discriminate.
  - intros [= ->]. now rewrite Nat.add_0_r.
  - intros H. rewrite (IH (S k) i H). f_equal. f_equal. lia.
Qed.

Lemma map_fst_enumerate_from (k : nat) (l : ndarray1 F) :
  map fst (enumerate_from k l) = seq k (length l).
Proof. revert k; induction l as [|x l IH]; intros k; simpl; [|rewrite IH]; auto. Qed.

Lemma to_uint_succ_nonnil (n : nat) : Nat.to_uint (n + 1) <> Decimal.Nil.
Proof.
  intros H. pose proof (Unsigned.of_to (n + 1)) as E.
  rewrite H in E. change (Nat.of_uint Decimal.Nil) with 0%nat in E. lia.
Qed.

Lemma beta_key_inj (i j : nat) : beta_key i = beta_key j -> i = j.
Proof.
  unfold beta_key. simpl. intros [= H].
  apply (f_equal NilZero.uint_of_string) in H.
  rewrite !NilZero.usu in H by apply to_uint_succ_nonnil.
  injection H as H. apply Unsigned.to_uint_inj in H. lia.
Qed.

Lemma beta_key_not_intercept (i : nat) : beta_key i <> "intercept".
Proof. unfold beta_key. simpl. discriminate. Qed.

(** X5.  When coefficients are stored, [get_params] returns one entry per
    coefficient, in order and under the keys [beta_x_1], [beta_x_2], ...,
    followed by the entry [intercept]; all keys differ, so no entry
    replaces another. *)
Theorem get_params_entries (s : state) (coef : ndarray1 F) :
  coef_ s = Some coef ->
  exists d,
    get_params s = (Ok d, s) /\
    length d = S (length coef) /\
    (forall i c, nth_error coef i = Some c ->
                 nth_error d i = Some (beta_key i, Some c)) /\
    nth_error d (length coef) = Some ("intercept", intercept_ s) /\
    NoDup (map fst d).
Proof.
  intros Hc.
  unfold get_params, bind, get, ret. rewrite Hc.
  eexists. split; [reflexivity|].
  repeat split.
  - rewrite length_app, length_map, length_enumerate_from. simpl. lia.
  - intros i c Hi.
    rewrite nth_error_app1.
    + rewrite nth_error_map, (nth_error_enumerate_from 0 _ _ Hi). reflexivity.
    + rewrite length_map, length_enumerate_from.
      apply nth_error_Some. congruence.
  - rewrite nth_error_app2; rewrite length_map, length_enumerate_from; [|lia].
    now rewrite Nat.sub_diag.
  - rewrite map_app, map_map. simpl.
    rewrite <- (map_map fst beta_key), map_fst_enumerate_from.
    apply NoDup_app.
    + apply NoDup_map_NoDup_ForallPairs; [|apply seq_NoDup].
      intros a b _ _. apply beta_key_inj.
    + constructor; [simpl; tauto|constructor].
    + intros k Hin [Hk|[]].
      apply in_map_iff in Hin. destruct Hin as (i & Hi & _).
      rewrite <- Hk in Hi. now apply beta_key_not_intercept in Hi.
Qed.

(** *** Diagnostics on consistent fit state *)

Lemma bind_ok {A B} (m : M F A) (k : A -> M F B) (s s1 : state) (a : A) :
  m s = (Ok a, s1) -> bind m k s = k a s1.
Proof. intros H. unfold bind. now rewrite H. Qed.

Lemma get_x_ok (s : state) (x : ndarray2 F) :
  x_ s = Some x -> get_x_ s = (Ok x, s).
Proof. intros H. unfold get_x_, bind, get, ret. now rewrite H. Qed.

Lemma get_y_ok (s : state) (y : ndarray1 F) :
  y_ s = Some y -> get_y_ s = (Ok y, s).
Proof. intros H. unfold get_y_, bind, get, ret. now rewrite H. Qed.

Section Consistent.

Variables (s : state) (x : ndarray2 F) (y b : ndarray1 F).
Hypothesis Hs : consistent s x y b.

Let residuals := zip_with fsub y (predictions x b).
Let ssr := np_sum (np_square residuals).
Let sst := _compute_total_sum_squares y.

Lemma predict_stored : predict (Arr2 x) s = (Ok (predictions x b), s).
Proof.
  destruct Hs as (_ & _ & Hb & Hl & _).
  rewrite predict_eq. unfold beta_len. rewrite Hb, Hl, Nat.eqb_refl.
  cbn [negb matmul_attr]. now rewrite matvec_ok.
Qed.

Lemma length_predictions : length (predictions x b) = shape0 x.
Proof. unfold predictions. now rewrite length_map, length_seq. Qed.

Lemma get_residuals_stored : get_residuals s = (Ok residuals, s).
Proof.
  destruct Hs as (Hx & Hy & _ & _ & Hl).
  unfold get_residuals.
  rewrite (bind_ok _ _ _ (get_y_ok _ Hy)), (bind_ok _ _ _ (get_x_ok _ Hx)),
    (bind_ok _ _ _ predict_stored).
  unfold lift, _preprocess_input_vector.
  rewrite broadcast_same_length; [reflexivity|].
  now rewrite length_predictions.
Qed.

Lemma sum_squared_residuals_stored :
  _compute_sum_squared_residuals (predictions x b) y = Ok ssr.
Proof.
  destruct Hs as (_ & _ & _ & _ & Hl).
  unfold _compute_sum_squared_residuals.
  rewrite broadcast_same_length; [reflexivity|].
  now rewrite length_predictions.
Qed.

Lemma compute_r_squared_stored :
  compute_r_squared s = (Ok (fsub f1 (fdiv ssr sst)), s).
Proof.
  destruct Hs as (Hx & Hy & _).
  unfold compute_r_squared.
  rewrite (bind_ok _ _ _ (get_x_ok _ Hx)), (bind_ok _ _ _ predict_stored),
    (bind_ok _ _ _ (get_y_ok _ Hy)), (bind_ok _ _ _ (get_y_ok _ Hy)).
  unfold lift at 1. unfold bind. rewrite sum_squared_residuals_stored.
  reflexivity.
Qed.

Lemma compute_f_statistic_stored (p d : Z) :
  num_predictors s = Some p ->
  degrees_of_freedom s = Some d ->
  compute_f_statistic s
  = (Ok (fdiv (fmul (fsub sst ssr) (of_int d)) (fmul (of_int p) ssr)), s).
Proof.
  intros Hp Hd. destruct Hs as (Hx & Hy & _).
  unfold compute_f_statistic.
  rewrite (bind_ok _ _ _ (get_x_ok _ Hx)), (bind_ok _ _ _ predict_stored),
    (bind_ok _ _ _ (get_y_ok _ Hy)), (bind_ok _ _ _ (get_y_ok _ Hy)).
  unfold bind, lift, get, ret. rewrite sum_squared_residuals_stored, Hd, Hp.
  reflexivity.
Qed.

Lemma residuals_variance_stored (d : Z) :
  degrees_of_freedom s = Some d ->
  _get_residuals_variance s = (Ok (fdiv ssr (of_int d)), s).
Proof.
  intros Hd. unfold _get_residuals_variance.
  rewrite (bind_ok _ _ _ get_residuals_stored).
  unfold bind, lift, get, ret. now rewrite Hd.
Qed.

Lemma covariance_matrix_stored (d : Z) (e : nat -> nat -> F) :
  degrees_of_freedom s = Some d ->
  inv_entries (gram x) = Some e ->
  _compute_covariance_matrix inv_entries s
  = (Ok (scale (fdiv ssr (of_int d)) (Array2 (shape1 x) (shape1 x) e)), s).
Proof.
  intros Hd He. destruct Hs as (Hx & _).
  unfold _compute_covariance_matrix.
  rewrite (bind_ok _ _ _ (residuals_variance_stored Hd)),
    (bind_ok _ _ _ (get_x_ok _ Hx)), (bind_ok _ _ _ (get_x_ok _ Hx)).
  unfold bind, lift, ret. rewrite matmul_transpose_self.
  unfold np_linalg_inv. cbn [gram shape0 shape1].
  rewrite Nat.eqb_refl. fold (gram x). now rewrite He.
Qed.

Lemma standard_errors_stored (d : Z) (e : nat -> nat -> F) :
  degrees_of_freedom s = Some d ->
  inv_entries (gram x) = Some e ->
  compute_standard_errors inv_entries s
  = (Ok (map (fun i => fsqrt (fmul (fdiv ssr (of_int d)) (e i i)))
             (seq 0 (length b))), s).
Proof.
  intros Hd He.
  unfold compute_standard_errors.
  rewrite (bind_ok _ _ _ (covariance_matrix_stored Hd He)).
  destruct Hs as (_ & _ & _ & Hl & _).
  unfold ret, np_sqrt, np_diag, scale. cbn [shape0 shape1 at2].
  now rewrite Nat.min_id, map_map, Hl.
Qed.

Lemma t_statistics_stored (d : Z) (e : nat -> nat -> F) :
  degrees_of_freedom s = Some d ->
  inv_entries (gram x) = Some e ->
  compute_t_statistics inv_entries s
  = (Ok (zip_with fdiv b
           (map (fun i => fsqrt (fmul (fdiv ssr (of_int d)) (e i i)))
                (seq 0 (length b)))), s).
Proof.
  intros Hd He.
  unfold compute_t_statistics.
  rewrite (bind_ok _ _ _ (standard_errors_stored Hd He)).
  destruct Hs as (_ & _ & Hb & _).
  unfold bind, get. rewrite Hb. unfold lift.
  rewrite broadcast_same_length; [reflexivity|].
  now rewrite length_map, length_seq.
Qed.

End Consistent.

(** X11.  After a successful [fit] the residual diagnostics all return
    and assign nothing: the residuals are the response minus the
    predictions on the stored matrix, R squared is [1 - SSR / SST] with
    SSR the sum of the squared residuals, the adjusted value applies
    [num_predictors / degrees_of_freedom] to [1 - R^2], and the F-statistic
    is [(SST - SSR) * degrees_of_freedom / (num_predictors * SSR)]. *)
Theorem fitted_diagnostics_return
  (X : ArrayLike F) (y : ndarray1 F) (s s' : state) :
  fit' X y s = (Ok tt, s') ->
  exists x b,
    x_ s' = Some x /\ betas_ s' = Some b /\
    let d := Z.of_nat (shape0 x) - Z.of_nat (shape1 x) in
    let p := Z.of_nat (shape1 x) - 1 in
    let residuals := zip_with fsub y (predictions x b) in
    let ssr := np_sum (np_square residuals) in
    let sst := _compute_total_sum_squares y in
    let r_squared := fsub f1 (fdiv ssr sst) in
    get_residuals s' = (Ok residuals, s') /\
    compute_r_squared s' = (Ok r_squared, s') /\
    compute_adjusted_r_squared s'
    = (Ok (fsub f1 (fdiv (fmul (fsub f1 r_squared) (of_int p)) (of_int d))), s') /\
    compute_f_statistic s'
    = (Ok (fdiv (fmul (fsub sst ssr) (of_int d)) (fmul (of_int p) ssr)), s').
Proof.
  intros H.
  destruct (fit_ok_inv _ _ _ _ _ H) as (_ & _ & Hy & e & _ & ->).
  set (X' := _preprocess_input_matrix X) in *. clearbody X'.
  set (b := normal_equations e X' y).
  assert (Hc : consistent (fitted s X' y b (nth 0 b f0)) X' y b).
  { unfold consistent, fitted. cbn [x_ y_ betas_].
    repeat split; [apply length_normal_equations|now symmetry]. }
  clearbody b.
  exists X', b. split; [reflexivity|]. split; [reflexivity|].
  cbv zeta. split; [apply (get_residuals_stored Hc)|].
  split; [apply (compute_r_squared_stored Hc)|].
  split.
  - apply adjusted_r_squared_formula;
      [apply (compute_r_squared_stored Hc)|reflexivity|reflexivity].
  - apply (compute_f_statistic_stored Hc); reflexivity.
Qed.

(** X12.  After a successful [fit] the standard errors and the
    t-statistics return, one per beta: standard error [i] is the square
    root of the residual variance [SSR / degrees_of_freedom] times the
    diagonal entry [i] of the inverse of [XtX], and t-statistic [i] is
    beta [i] divided by it. *)
Theorem fitted_standard_errors
  (X : ArrayLike F) (y : ndarray1 F) (s s' : state) :
  fit' X y s = (Ok tt, s') ->
  exists x b e se,
    x_ s' = Some x /\ betas_ s' = Some b /\
    inv_entries (gram x) = Some e /\
    let d := Z.of_nat (shape0 x) - Z.of_nat (shape1 x) in
    let ssr := np_sum (np_square (zip_with fsub y (predictions x b))) in
    se = map (fun i => fsqrt (fmul (fdiv ssr (of_int d)) (e i i)))
             (seq 0 (length b)) /\
    compute_standard_errors inv_entries s' = (Ok se, s') /\
    length se = length b /\
    compute_t_statistics inv_entries s' = (Ok (zip_with fdiv b se), s') /\
    length (zip_with fdiv b se) = length b.
Proof.
  intros H.
  destruct (fit_ok_inv _ _ _ _ _ H) as (_ & _ & Hy & e & He & ->).
  set (X' := _preprocess_input_matrix X) in *. clearbody X'.
  set (b := normal_equations e X' y).
  assert (Hc : consistent (fitted s X' y b (nth 0 b f0)) X' y b).
  { unfold consistent, fitted. cbn [x_ y_ betas_].
    repeat split; [apply length_normal_equations|now symmetry]. }
  clearbody b.
  eexists X', b, e, _.
  split; [reflexivity|]. split; [reflexivity|]. split; [exact He|].
  cbv zeta. split; [reflexivity|].
  assert (Hl : length (map (fun i => fsqrt (fmul (fdiv
                 (np_sum (np_square (zip_with fsub y (predictions X' b))))
                 (of_int (Z.of_nat (shape0 X') - Z.of_nat (shape1 X'))))
                 (e i i))) (seq 0 (length b))) = length b)
    by (now rewrite length_map, length_seq).
  split; [apply (standard_errors_stored Hc); [reflexivity|exact He]|].
  split; [exact Hl|].
  split; [apply (t_statistics_stored Hc); [reflexivity|exact He]|].
  rewrite length_zip_with; [reflexivity|now rewrite Hl].
Qed.


(** *** Printing *)

(** X15.  Printing an estimator on which no fit has succeeded fails:
    [__repr__] and [__str__] raise [TypeError], because they iterate over
    betas that are still [None]; they assign nothing. *)
Theorem repr_unfitted_raises (str_of_float : F -> string) (s : state) :
  never_fitted inv_entries is_invertible_svd s ->
  __repr__ str_of_float s
  = (Raise (TypeError "'NoneType' object is not iterable"), s) /\
  __str__ str_of_float s
  = (Raise (TypeError "'NoneType' object is not iterable"), s).
Proof.
  intros H. destruct (never_fitted_none H) as [Hb _].
  unfold __str__, __repr__, bind, get, raise. now rewrite Hb.
Qed.

End More.

(* ================================================================= *)
(** ** Further worked examples on binary64 *)

Module MoreWorked.

Import Examples MoreExamples.

Definition betas_ex : ndarray1 float :=
  match betas_ trained_ex with Some b => b | None => [] end.

Definition coef_ex : ndarray1 float :=
  match coef_ trained_ex with Some c => c | None => [] end.

Definition inv_ex : nat -> nat -> float :=
  match inv_2x2 (gram (_preprocess_input_matrix xs)) with
  | Some e => e
  | None => fun _ _ => 0%float
  end.

Lemma betas_ex_stored : betas_ trained_ex = Some betas_ex.
Proof. vm_compute. reflexivity. Defined.

Lemma predict_raw_and_augmented_agree_witness :
  predict (Arr2 column3) trained_ex
  = predict (Arr2 (_include_intercept_column column3)) trained_ex.
Proof.
  apply (proj1 (@predict_raw_and_augmented_agree float _ column3 trained_ex
                  betas_ex betas_ex_stored eq_refl)).
Defined.

Lemma predict_wrong_width_raises_witness :
  predict (Arr2 five_columns) trained_ex
  = (Raise (ValueError "matmul: mismatch in core dimension"), trained_ex).
Proof.
  apply (@predict_wrong_width_raises float _ five_columns trained_ex
           betas_ex betas_ex_stored).
  - vm_compute. discriminate.
  - vm_compute. discriminate.
Defined.

Lemma predict_one_dimensional_raises_witness :
  predict xs trained_ex
  = (Raise (IndexError "tuple index out of range"), trained_ex).
Proof.
  apply (proj1 (predict_one_dimensional_raises inv_2x2 is_invertible_2x2
                  [1; 2; 3; 4; 5; 6]%float ys fresh Worked.fit_ex_accepts)).
Defined.

Lemma predict_length_witness :
  exists y_pred,
    fst (predict (Arr2 column3) trained_ex) = Ok y_pred /\
    length y_pred = 3%nat.
Proof.
  pose (r := predict (Arr2 column3) trained_ex).
  pose (p := match fst r with Ok v => v | Raise _ => [] end).
  assert (H : r = (Ok p, snd r)).
  { apply (@Worked.pair_of_fst _ _ r (Ok p)). vm_compute. reflexivity. }
  exists p. split.
  - change (fst r = Ok p). now rewrite H.
  - apply (proj1 (predict_length column3 trained_ex H)).
Defined.

Lemma get_params_entries_witness :
  exists d,
    get_params trained_ex = (Ok d, trained_ex) /\
    length d = 2%nat /\ NoDup (map fst d).
Proof.
  destruct (@get_params_entries float trained_ex coef_ex)
    as (d & Hd & Hl & _ & _ & Hn).
  - vm_compute. reflexivity.
  - exists d. repeat split; assumption.
Defined.

Lemma fit_response_length_mismatch_witness :
  fst (fit_ex xs ys_short fresh)
  = Raise (ValueError "matmul: mismatch in core dimension").
Proof.
  destruct (fit_response_length_mismatch inv_2x2 is_invertible_2x2
              xs ys_short fresh (e := inv_ex)) as [H _].
  - vm_compute. reflexivity.
  - vm_compute. reflexivity.
  - vm_compute. reflexivity.
  - vm_compute. discriminate.
  - now rewrite H.
Defined.

Lemma fit_inverse_failure_witness :
  fst (fit (fun _ => None) is_invertible_2x2 xs ys fresh)
  = Raise (LinAlgError "Singular matrix").
Proof.
  rewrite (fit_inverse_failure (fun _ => None) is_invertible_2x2 xs ys fresh).
  - reflexivity.
  - vm_compute. reflexivity.
  - vm_compute. reflexivity.
  - reflexivity.
Defined.

Lemma fit_overwrites_prior_state_witness :
  exists s2',
    fit_ex xs ys (snd (fit_ex xs_short ys_short fresh)) = (Ok tt, s2') /\
    betas_ s2' = betas_ trained_ex.
Proof.
  destruct (fit_overwrites_prior_state inv_2x2 is_invertible_2x2 xs ys fresh
              (snd (fit_ex xs_short ys_short fresh)) Worked.fit_ex_accepts)
    as (s2' & H & _ & _ & Hb & _).
  exists s2'. now split.
Defined.

Lemma fitted_diagnostics_return_witness :
  exists residuals,
    get_residuals trained_ex = (Ok residuals, trained_ex).
Proof.
  destruct (fitted_diagnostics_return inv_2x2 is_invertible_2x2 xs ys fresh
              Worked.fit_ex_accepts)
    as (x & b & _ & _ & Hr & _).
  eexists. exact Hr.
Defined.

Lemma fitted_standard_errors_witness :
  exists se,
    compute_standard_errors inv_2x2 trained_ex = (Ok se, trained_ex) /\
    length se = 2%nat.
Proof.
  destruct (fitted_standard_errors inv_2x2 is_invertible_2x2 xs ys fresh
              Worked.fit_ex_accepts)
    as (x & b & e & se & _ & Hb & _ & _ & Hse & Hl & _).
  exists se. split; [exact Hse|].
  rewrite Hl.
  assert (E : Some b = Some betas_ex) by (now rewrite <- Hb, betas_ex_stored).
  injection E as ->. reflexivity.
Defined.


Lemma repr_unfitted_raises_witness :
  __repr__ (fun _ : float => "x") fresh
  = (Raise (TypeError "'NoneType' object is not iterable"), fresh).
Proof.
  apply (proj1 (repr_unfitted_raises (inv_entries := inv_2x2)
                  (is_invertible_svd := is_invertible_2x2)
                  (fun _ => "x") (never_fitted_init _ _ false))).
Defined.

Lemma fit_no_predictors_witness :
  num_predictors (snd (fit inv_small is_invertible_small
                         (Arr2 no_columns) ys3 fresh)) = Some 0%Z.
Proof.
  destruct (fit_no_predictors inv_small is_invertible_small
              no_columns ys3 fresh
              (s' := snd (fit inv_small is_invertible_small
                            (Arr2 no_columns) ys3 fresh)))
    as (b0 & _ & _ & _ & Hp & _).
  - reflexivity.
  - apply (@Worked.pair_of_fst _ _
             (fit inv_small is_invertible_small (Arr2 no_columns) ys3 fresh)
             (Ok tt)).
    vm_compute. reflexivity.
  - exact Hp.
Defined.

End MoreWorked.
